(** * TempoTokens [utils/dataset.py]: a shallow embedding and its properties

    The module under study is the data-loading layer of a video/audio
    training pipeline.  The parts that carry logic are
      - [get_text_prompt]          caption resolution,
      - [get_video_frames]         the frame-window selector,
      - [process_video]            the audio aligner,
      - [VideoJsonDataset]         manifest loading and [__len__],
      - [SingleVideoDataset]       chunking of one video,
      - [VideoFolderDataset]       rate-based frame selection, shape
                                   validation and the retry loop.
    Python values are modelled as the code has them: [int] as [Z],
    [float] as IEEE binary64 ([PrimFloat]), [str] as [string], lists and
    tuples as [list], a [set] as [gset], and a raised exception as the
    [Raise] branch of [result]. *)

From Stdlib Require Import ZArith String Ascii Floats Lia Bool.
From stdpp Require Import base list gmap strings sorting.

Open Scope Z_scope.

(** ** Part I.  The Python runtime the code relies on *)

Module Py.

(** The exceptions the modelled code can meet. *)
Inductive exn : Set :=
| ValueError
| IndexError
| KeyError
| TypeError
| ZeroDivisionError
| OverflowError
| AssertionError
| FileNotFoundError
| OSError
| UnicodeDecodeError
| DecodeError.

(** A computation either returns a value or raises. *)
Inductive result (A : Type) : Type :=
| Ok (a : A)
| Raise (e : exn).
Arguments Ok {A} a.
Arguments Raise {A} e.

Definition bind {A B} (m : result A) (k : A -> result B) : result B :=
  match m with
  | Ok a => k a
  | Raise e => Raise e
  end.

Definition is_ok {A} (m : result A) : bool :=
  match m with Ok _ => true | Raise _ => false end.

(** [assert c]. *)
Definition py_assert (c : bool) : result unit :=
  if c then Ok tt else Raise AssertionError.

(** *** Integers *)

(** numpy's [int64] arithmetic wraps around. *)
Definition int64_wrap (z : Z) : Z :=
  (z + 2 ^ 63) mod 2 ^ 64 - 2 ^ 63.

(** [a // b] on ints. *)
Definition floordiv (a b : Z) : result Z :=
  if b =? 0 then Raise ZeroDivisionError else Ok (a / b).

(** *** Floats (IEEE binary64) *)

(** [float(z)]: the nearest double, ties to even. *)
Definition Z2F (z : Z) : float :=
  SF2Prim (binary_normalize prec emax z 0 false).

(** The integer part and the remainder of a positive [m * 2^e]. *)
Definition scaled (m : positive) (e : Z) : Z * Z * Z :=
  match e with
  | Z0 => (Zpos m, 0, 1)
  | Zpos p => (Z.shiftl (Zpos m) (Zpos p), 0, 1)
  | Zneg p => (Z.shiftr (Zpos m) (Zpos p), Zpos m mod 2 ^ Zpos p, 2 ^ Zpos p)
  end.

(** [int(x)]: truncation towards zero. *)
Definition int_of_float (x : float) : result Z :=
  match Prim2SF x with
  | S754_zero _ => Ok 0
  | S754_finite s m e =>
      let '(q, _, _) := scaled m e in
      Ok (if s then - q else q)
  | S754_infinity _ => Raise OverflowError
  | S754_nan => Raise ValueError
  end.

(** [round(x)] with one argument: to the nearest int, ties to even. *)
Definition round (x : float) : result Z :=
  match Prim2SF x with
  | S754_zero _ => Ok 0
  | S754_finite s m e =>
      let '(q, r, d) := scaled m e in
      let q' := if (d <? 2 * r) || ((d =? 2 * r) && Z.odd q) then q + 1 else q in
      Ok (if s then - q' else q')
  | S754_infinity _ => Raise OverflowError
  | S754_nan => Raise ValueError
  end.

(** [a / b] on two ints (exact for operands below 2^53, which frame
    counts and sample rates are). *)
Definition truediv (a b : Z) : result float :=
  if b =? 0 then Raise ZeroDivisionError else Ok (Z2F a / Z2F b)%float.

(** [x / b] for a float and an int. *)
Definition fdiv_int (x : float) (b : Z) : result float :=
  if b =? 0 then Raise ZeroDivisionError else Ok (x / Z2F b)%float.

(** *** Sequences *)

(** [l[i]] with Python's negative indices. *)
Definition index {A} (l : list A) (i : Z) : result A :=
  let n := Z.of_nat (length l) in
  let j := if i <? 0 then i + n else i in
  if (0 <=? j) && (j <? n)
  then match l !! Z.to_nat j with Some a => Ok a | None => Raise IndexError end
  else Raise IndexError.

(** A slice bound clipped into [0, n], negative bounds counted from the end. *)
Definition clip_bound (n i : Z) : Z :=
  if i <? 0 then Z.max 0 (i + n) else Z.min i n.

(** [l[start:stop]]. *)
Definition slice {A} (l : list A) (start stop : Z) : list A :=
  let n := Z.of_nat (length l) in
  let a := clip_bound n start in
  let b := clip_bound n stop in
  take (Z.to_nat (b - a)) (drop (Z.to_nat a) l).

(** [l[:stop]]. *)
Definition slice_to {A} (l : list A) (stop : Z) : list A :=
  slice l 0 stop.

(** [len(range(start, stop, step))], as CPython computes it. *)
Definition range_len (start stop step : Z) : nat :=
  if 0 <? step
  then (if start <? stop then Z.to_nat ((stop - start - 1) / step + 1) else 0%nat)
  else (if stop <? start then Z.to_nat ((start - stop - 1) / (- step) + 1) else 0%nat).

(** [list(range(start, stop, step))]. *)
Definition range (start stop step : Z) : result (list Z) :=
  if step =? 0 then Raise ValueError
  else Ok (map (fun k : nat => start + Z.of_nat k * step) (seq 0 (range_len start stop step))).

(** [sorted(l)] on ints. *)
Fixpoint insert_sorted (x : Z) (l : list Z) : list Z :=
  match l with
  | [] => [x]
  | y :: l' => if x <=? y then x :: l else y :: insert_sorted x l'
  end.

Definition sorted (l : list Z) : list Z := foldr insert_sorted [] l.

(** [random.randint(a, b)], drawing from the raw random number [r]. *)
Definition randint (r : Z) (a b : Z) : result Z :=
  if b <? a then Raise ValueError else Ok (a + r mod (b - a + 1)).

(** [random.choice(seq)]. *)
Definition choice {A} (r : Z) (l : list A) : result A :=
  match l with
  | [] => Raise IndexError
  | _ => match l !! Z.to_nat (r mod Z.of_nat (length l)) with
         | Some a => Ok a
         | None => Raise IndexError
         end
  end.

(** *** numpy *)

(** [np.arange(start, stop)] on ints. *)
Definition arange (start stop : Z) : list Z :=
  map (fun k : nat => start + Z.of_nat k) (seq 0 (Z.to_nat (stop - start))).

(** [k * a] for an int and an int64 array. *)
Definition scale (k : Z) (a : list Z) : list Z :=
  map (fun x => int64_wrap (k * x)) a.

(** [np.tile(a, reps)] / [torch.tile] along the last axis. *)
Fixpoint tile {A} (a : list A) (reps : nat) : list A :=
  match reps with
  | O => []
  | S r => a ++ tile a r
  end.

(** *** Strings *)


(** [s.endswith(p)]. *)
Definition endswith (s p : string) : bool :=
  let n := String.length s in
  let k := String.length p in
  (k <=? n)%nat && String.eqb (String.substring (n - k) k s) p.

(** Scan for [old]; [skip] counts the characters of a match still to drop. *)
Fixpoint replace_from (old new : string) (skip : nat) (s : string) : string :=
  match s with
  | EmptyString => EmptyString
  | String c s' =>
      match skip with
      | S k => replace_from old new k s'
      | O =>
          if String.prefix old s
          then String.append new (replace_from old new (String.length old - 1) s')
          else String c (replace_from old new 0 s')
      end
  end.

(** Python places [new] around every character when [old] is empty. *)
Fixpoint intersperse (new : string) (s : string) : string :=
  match s with
  | EmptyString => EmptyString
  | String c s' => String c (String.append new (intersperse new s'))
  end.

(** [s.replace(old, new)]. *)
Definition replace (s old new : string) : string :=
  match old with
  | EmptyString => String.append new (intersperse new s)
  | _ => replace_from old new 0 s
  end.

End Py.

Import Py.

#[global] Instance result_ret : MRet Py.result := @Py.Ok.
#[global] Instance result_bind : MBind Py.result := fun A B k m => Py.bind m k.

(** ** Part II.  The environment: files, decoded media, randomness *)

(** A file either reads as text or fails when read (permissions, bytes
    that do not decode). *)
Inductive entry : Set :=
| Readable (content : string)
| Unreadable (e : exn).

(** The file system: what is stored under a path, if anything. *)
Definition filesystem : Type := string -> option entry.

(** [os.path.exists(path)]; the empty path never exists. *)
Definition path_exists (fs : filesystem) (path : string) : bool :=
  match path with
  | EmptyString => false
  | _ => match fs path with Some _ => true | None => false end
  end.

(** [open(path).read()]. *)
Definition read_file (fs : filesystem) (path : string) : result string :=
  if path_exists fs path then
    match fs path with
    | Some (Readable content) => Ok content
    | Some (Unreadable e) => Raise e
    | None => Raise FileNotFoundError
    end
  else Raise FileNotFoundError.

(** A tensor is represented by its shape. *)
Definition shape : Type := list Z.

(** What the code uses of a [decord.VideoReader]: its length, its average
    frame rate, and the shape [f, h, w, c] of a decoded batch (the decoder
    itself is an external collaborator). *)
Record VideoReader : Type := {
  vr_len : nat;
  vr_avg_fps : float;
  vr_get_batch : list Z -> result shape
}.

(** [rearrange(frames, "f h w c -> f c h w")]. *)
Definition rearrange_fhwc (s : shape) : result shape :=
  match s with
  | [f; h; w; c] => Ok [f; c; h; w]
  | _ => Raise ValueError
  end.

(** A loaded waveform: one list of samples per channel, and its rate. *)
Record Waveform : Type := {
  wf_channels : list (list Z);
  wf_rate : Z
}.

(** A parsed JSON document, as [json.load] returns it. *)
#[local] Set Warnings "-register-all".
Inductive json : Type :=
| JNull
| JBool (b : bool)
| JNum (z : Z)
| JStr (s : string)
| JArr (items : list json)
| JObj (fields : list (string * json)).

(** Everything outside the module that a call depends on. *)
Record world : Type := {
  fs : filesystem;
  (** [decord.VideoReader(path)] or [decord.VideoReader(path, width, height)] *)
  open_video : string -> option (Z * Z) -> result VideoReader;
  (** [torchaudio.load(path)] *)
  load_audio : string -> result Waveform;
  (** the resize chosen by [get_frame_buckets] (bucketing is external) *)
  bucket_resize : VideoReader -> result (shape -> shape);
  (** [json.load] applied to the text of a file *)
  json_load : string -> result json;
  (** the tokenizer: the first row of [input_ids] *)
  tokenize : string -> result (list Z);
  (** the raw random numbers drawn at the k-th attempt *)
  rand_offset : nat -> Z;
  rand_choice : nat -> Z
}.

(** ** Part III.  Module-level functions *)

(** [read_caption_file]. *)
Definition read_caption_file (fs : filesystem) (caption_file : string) : result string :=
  read_file fs caption_file.

(** [ext_types] is passed as a tuple by the dataset classes; the default
    value of the parameter is a list. *)
Inductive ext_types : Set :=
| ExtTuple (exts : list string)
| ExtList (exts : list string).

Definition exts_of (t : ext_types) : list string :=
  match t with ExtTuple l | ExtList l => l end.

(** [s.endswith(ext_types)]: [str.endswith] takes a str or a tuple of str. *)
Definition endswith_types (s : string) (t : ext_types) : result bool :=
  match t with
  | ExtTuple l => Ok (existsb (Py.endswith s) l)
  | ExtList _ => Raise TypeError
  end.

(** The [for ext in ext_types] loop of [get_text_prompt]: the value of
    [caption_file] when the loop ends. *)
Fixpoint find_caption_file (fs : filesystem) (file_path : string)
    (t : ext_types) (exts : list string) : result string :=
  match exts with
  | [] => Ok EmptyString
  | ext :: rest =>
      let maybe_file := Py.replace file_path ext ".txt" in
      skip ← endswith_types maybe_file t;
      if skip : bool then find_caption_file fs file_path t rest
      else if path_exists fs maybe_file then Ok maybe_file
      else find_caption_file fs file_path t rest
  end.

(** The body of the [try] in [get_text_prompt]. *)
Definition get_text_prompt_try (fs : filesystem) (text_prompt fallback_prompt file_path : string)
    (t : ext_types) (use_caption : bool) : result string :=
  if use_caption then
    if (1 <? String.length text_prompt)%nat then Ok text_prompt
    else
      caption_file ← find_caption_file fs file_path t (exts_of t);
      if path_exists fs caption_file
      then read_caption_file fs caption_file
      else Ok fallback_prompt
  else Ok text_prompt.

(** The line printed by the [except] branch. *)
Definition caption_warning (file_path : string) : string :=
  String.append "Couldn't read prompt caption for "
    (String.append file_path ". Using fallback.").

(** [get_text_prompt]: the prompt returned and the lines printed. *)
Definition get_text_prompt (fs : filesystem) (text_prompt fallback_prompt file_path : string)
    (t : ext_types) (use_caption : bool) : string * list string :=
  match get_text_prompt_try fs text_prompt fallback_prompt file_path t use_caption with
  | Ok prompt => (prompt, [])
  | Raise _ => (fallback_prompt, [caption_warning file_path])
  end.

(** [get_video_frames]. *)
Definition get_video_frames (vr : VideoReader) (start_idx sample_rate max_frames : Z)
    : result (list Z) :=
  let max_range := Z.of_nat (vr_len vr) in
  frame_number ← Py.index (Py.sorted [0; start_idx; max_range]) 1;
  frame_range ← Py.range frame_number max_range sample_rate;
  mret (Py.slice_to frame_range max_frames).

(** The start of the audio window, [int(sample_rate * idxs[0] / 30)]. *)
Definition audio_start (sample_rate i0 : Z) : result Z :=
  Py.int_of_float (Py.Z2F (Py.int64_wrap (sample_rate * i0)) / Py.Z2F 30)%float.

(** The length asked for, [int(len(idxs) / 24 * sample_rate)]. *)
Definition audio_len (n_idxs sample_rate : Z) : result Z :=
  ratio ← Py.truediv n_idxs 24;
  Py.int_of_float (ratio * Py.Z2F sample_rate)%float.

(** The audio half of [process_video] (lines 95-100): tile ten times, keep
    ten seconds, cut the window that goes with the frames [idxs]. *)
Definition align_audio (wf : Waveform) (idxs : list Z) : result (list (list Z)) :=
  let sample_rate := wf_rate wf in
  let waveform := map (fun ch => Py.tile ch 10) (wf_channels wf) in
  let audio := map (fun ch => Py.slice_to ch (sample_rate * 10)) waveform in
  i0 ← Py.index idxs 0;
  start ← audio_start sample_rate i0;
  len ← audio_len (Z.of_nat (length idxs)) sample_rate;
  let stop := start + len in
  mret (map (fun ch => Py.slice ch start stop) audio).

(** [process_video], with the two callbacks of the calling dataset. *)
Definition process_video {V : Type} (w : world) (vid_path : string) (use_bucketing : bool)
    (width height : Z)
    (get_frame_buckets : VideoReader -> result (shape -> shape))
    (get_frame_batch : VideoReader -> option (shape -> shape) -> result (V * list Z))
    : result (V * VideoReader * list (list Z)) :=
  '(vr, video, idxs) ←
    (if use_bucketing then
       vr ← open_video w vid_path None;
       resize ← get_frame_buckets vr;
       '(video, idxs) ← get_frame_batch vr (Some resize);
       mret (vr, video, idxs)
     else
       vr ← open_video w vid_path (Some (width, height));
       '(video, idxs) ← get_frame_batch vr None;
       mret (vr, video, idxs));
  let aud_path := Py.replace (Py.replace vid_path "video" "audio") "mp4" "wav" in
  wf ← load_audio w aud_path;
  audio ← align_audio wf idxs;
  mret (video, vr, audio).

(** ** Part IV.  The dataset classes *)

(** *** [VideoJsonDataset] *)

Module VideoJsonDataset.

(** [o[key]] for a string key. *)
Definition getitem (o : json) (key : string) : result json :=
  match o with
  | JObj fields =>
      match List.find (fun kv => String.eqb (fst kv) key) fields with
      | Some kv => Ok (snd kv)
      | None => Raise KeyError
      end
  | _ => Raise TypeError
  end.

(** [key in o] for a string key. *)
Definition contains (o : json) (key : string) : result bool :=
  match o with
  | JObj fields => Ok (existsb (fun kv => String.eqb (fst kv) key) fields)
  | JArr items =>
      Ok (existsb (fun v => match v with JStr s => String.eqb s key | _ => false end) items)
  | JStr s => Ok (match String.index 0 key s with Some _ => true | None => false end)
  | _ => Raise TypeError
  end.

(** The values met by [for x in o]. *)
Definition iterate (o : json) : result (list json) :=
  match o with
  | JArr items => Ok items
  | JObj fields => Ok (map (fun kv => JStr (fst kv)) fields)
  | JStr s => Ok (map (fun c => JStr (String c EmptyString)) (list_ascii_of_string s))
  | _ => Raise TypeError
  end.

(** One entry of [train_data]: a dict with string keys. *)
Abbreviation item := (gmap string json).

Record t : Type := {
  vid_data_key : string;
  (** [None] is Python's [None] *)
  train_data : option (list item);
  width : Z;
  height : Z;
  n_sample_frames : Z;
  sample_start_idx : Z;
  frame_step : Z
}.

Definition set_train_data (self : t) (v : option (list item)) : t :=
  {| vid_data_key := vid_data_key self;
     train_data := v;
     width := width self;
     height := height self;
     n_sample_frames := n_sample_frames self;
     sample_start_idx := sample_start_idx self;
     frame_step := frame_step self |}.

(** [build_json_dict]: the dict appended to [extended_data]. *)
Definition build_json_dict (self : t) (data nested_data : json) : result item :=
  has_clip ← contains nested_data "clip_path";
  clip_path ← (if has_clip : bool then getitem nested_data "clip_path" else Ok JNull);
  video ← getitem data (vid_data_key self);
  frame_index ← getitem nested_data "frame_index";
  prompt ← getitem nested_data "prompt";
  mret (<["clip_path" := clip_path]>
        (<["prompt" := prompt]>
         (<["frame_index" := frame_index]>
          {[ vid_data_key self := video ]}))).

(** The inner loop of [build_json]. *)
Fixpoint build_nested (self : t) (data : json) (nested : list json) (acc : list item)
    : result (list item) :=
  match nested with
  | [] => Ok acc
  | nested_data :: rest =>
      d ← build_json_dict self data nested_data;
      build_nested self data rest (acc ++ [d])
  end.

(** The outer loop of [build_json]. *)
Fixpoint build_outer (self : t) (groups : list json) (acc : list item)
    : result (list item) :=
  match groups with
  | [] => Ok acc
  | data :: rest =>
      inner ← getitem data "data";
      nested ← iterate inner;
      acc' ← build_nested self data nested acc;
      build_outer self rest acc'
  end.

(** [build_json]. *)
Definition build_json (self : t) (json_data : json) : result (list item) :=
  outer ← getitem json_data "data";
  groups ← iterate outer;
  build_outer self groups [].

(** The body of the [try] in [load_from_json]. *)
Definition load_from_json_try (w : world) (self : t) (path : string) : result (list item) :=
  text ← read_file (fs w) path;
  json_data ← json_load w text;
  build_json self json_data.

(** [load_from_json]: the value returned and the object afterwards.  The
    [except] branch stores an empty list and falls off the end of the
    function, which returns [None]. *)
Definition load_from_json (w : world) (self : t) (path : string)
    : option (list item) * t :=
  match load_from_json_try w self path with
  | Ok data => (Some data, self)
  | Raise _ => (None, set_train_data self (Some []))
  end.

(** [__init__]: [self.train_data = self.load_from_json(json_path, json_data)]
    and the plain attribute assignments. *)
Definition init (w : world) (width height n_sample_frames sample_start_idx frame_step : Z)
    (json_path vid_data_key : string) : t :=
  let self := {| vid_data_key := vid_data_key;
                 train_data := None;
                 width := 0; height := 0; n_sample_frames := 0;
                 sample_start_idx := 0; frame_step := 0 |} in
  let '(ret, self) := load_from_json w self json_path in
  let self := set_train_data self ret in
  {| vid_data_key := VideoJsonDataset.vid_data_key self;
     train_data := train_data self;
     width := width;
     height := height;
     n_sample_frames := n_sample_frames;
     sample_start_idx := sample_start_idx;
     frame_step := frame_step |}.

(** [__len__]. *)
Definition len (self : t) : Z :=
  match train_data self with
  | Some data => Z.of_nat (length data)
  | None => 0
  end.

End VideoJsonDataset.

(** *** [SingleVideoDataset] *)

Module SingleVideoDataset.

Record t : Type := {
  single_video_path : string;
  n_sample_frames : Z;
  frame_step : Z;
  (** a list of tuples of frame numbers *)
  frames : list (list Z)
}.

Definition set_frames (self : t) (v : list (list Z)) : t :=
  {| single_video_path := single_video_path self;
     n_sample_frames := n_sample_frames self;
     frame_step := frame_step self;
     frames := v |}.

(** [iter(lambda: tuple(islice(it, size)), ())]: tuples of [size] items
    until an empty one comes; [fuel] bounds the number of tuples. *)
Fixpoint chunk_upto (fuel : nat) (it : list Z) (size : nat) : list (list Z) :=
  match fuel with
  | O => []
  | S fuel' =>
      match take size it with
      | [] => []
      | c => c :: chunk_upto fuel' (drop size it) size
      end
  end.

(** [list(self.chunk(it, size))]; [islice] refuses a negative size.  A
    source of [n] items yields at most [n] tuples. *)
Definition chunk (it : list Z) (size : Z) : result (list (list Z)) :=
  if size <? 0 then Raise ValueError
  else Ok (chunk_upto (S (length it)) it (Z.to_nat size)).

(** The inner [for frame_num in inner_frame_nums] at position [i]: every
    out-of-range frame number runs [del self.frames[i]]. *)
Fixpoint delete_for (vr_length : Z) (i : nat) (inner : list Z) (frames : list (list Z))
    : result (list (list Z)) :=
  match inner with
  | [] => Ok frames
  | frame_num :: rest =>
      if vr_length <? frame_num then
        if (i <? length frames)%nat
        then delete_for vr_length i rest (delete i frames)
        else Raise IndexError
      else delete_for vr_length i rest frames
  end.

(** The outer [for i, inner_frame_nums in enumerate(self.frames)], which
    walks the list while it shrinks.  It ends when position [i] is past
    the end; [fuel] is an upper bound on the positions visited. *)
Fixpoint prune_from (fuel : nat) (vr_length : Z) (i : nat) (frames : list (list Z))
    : result (list (list Z)) :=
  match fuel with
  | O => Ok frames
  | S fuel' =>
      match frames !! i with
      | None => Ok frames
      | Some inner =>
          frames' ← delete_for vr_length i inner frames;
          prune_from fuel' vr_length (S i) frames'
      end
  end.

(** [create_video_chunks]: the value returned and the object afterwards. *)
Definition create_video_chunks (w : world) (self : t) : result (list (list Z) * t) :=
  vr ← open_video w (single_video_path self) None;
  let vr_length := Z.of_nat (vr_len vr) in
  vr_range ← Py.range 1 vr_length (frame_step self);
  chunks ← chunk vr_range (n_sample_frames self);
  frames ← prune_from (length chunks) vr_length 0 chunks;
  mret (frames, set_frames self frames).

(** [__len__]. *)
Definition len (w : world) (self : t) : result Z :=
  '(frames, _) ← create_video_chunks w self;
  mret (Z.of_nat (length frames)).

End SingleVideoDataset.

(** *** [VideoFolderDataset] *)

Module VideoFolderDataset.

(** The object after [__init__]. *)
Record t : Type := {
  video_files : list string;
  width : Z;
  height : Z;
  n_sample_frames : Z;
  fps : Z;
  fallback_prompt : string;
  use_bucketing : bool;
  (** indices that were fetched successfully *)
  valid_videos : gset Z
}.

Definition set_size (self : t) (w h : Z) : t :=
  {| video_files := video_files self;
     width := w;
     height := h;
     n_sample_frames := n_sample_frames self;
     fps := fps self;
     fallback_prompt := fallback_prompt self;
     use_bucketing := use_bucketing self;
     valid_videos := valid_videos self |}.

Definition set_valid_videos (self : t) (v : gset Z) : t :=
  {| video_files := video_files self;
     width := width self;
     height := height self;
     n_sample_frames := n_sample_frames self;
     fps := fps self;
     fallback_prompt := fallback_prompt self;
     use_bucketing := use_bucketing self;
     valid_videos := v |}.

(** The double that Python reads from the literal [1e-5]. *)
Definition epsilon : float := 0x1.4f8b588e368f1p-17%float.

(** [max(1, round((native_fps / self.fps) + 1e-5))], then
    [min(len(vr), every_nth_frame)] (lines 598-599). *)
Definition every_nth_frame (native_fps : float) (fps vr_length : Z) : result Z :=
  ratio ← Py.fdiv_int native_fps fps;
  rounded ← Py.round (ratio + epsilon)%float;
  mret (Z.min vr_length (Z.max 1 rounded)).

(** [len(vr) // every_nth_frame] (line 601). *)
Definition effective_length (vr_length every_nth : Z) : result Z :=
  Py.floordiv vr_length every_nth.

(** Lines 602-603: the requested count, shrunk to the usable length. *)
Definition shrink (effective_length n_sample_frames : Z) : Z :=
  if effective_length <? n_sample_frames then effective_length else n_sample_frames.

(** Lines 604-607: a random start, or [int(native_fps)] when
    [random.randint] raises. *)
Definition effective_idx (r : Z) (native_fps : float) (effective_length n every_nth : Z)
    : result Z :=
  match Py.randint r 0 (effective_length - n * every_nth - 5) with
  | Ok i => Ok i
  | Raise _ => Py.int_of_float native_fps
  end.

(** Lines 595-609: the (possibly shrunk) frame count and the index array
    [every_nth_frame * np.arange(effective_idx, effective_idx + n_sample_frames)]. *)
Definition arange_idxs (self : t) (vr : VideoReader) (r : Z) : result (Z * list Z) :=
  let vr_length := Z.of_nat (vr_len vr) in
  let native_fps := vr_avg_fps vr in
  every_nth ← every_nth_frame native_fps (fps self) vr_length;
  eff ← effective_length vr_length every_nth;
  let n := shrink eff (n_sample_frames self) in
  start ← effective_idx r native_fps eff n every_nth;
  mret (n, Py.scale every_nth (Py.arange start (start + n))).

(** The test of line 611, [len(idxs) != n_sample_frames]. *)
Definition length_differs (idxs : list Z) (n : Z) : bool :=
  negb (Z.of_nat (length idxs) =? n).

(** Lines 611-612: [np.tile(idxs, 10)[:n_sample_frames]] when the test holds. *)
Definition retile (idxs : list Z) (n : Z) : list Z :=
  if length_differs idxs n then Py.slice_to (Py.tile idxs 10) n else idxs.

(** The frame indices [get_frame_batch] decodes. *)
Definition frame_idxs (self : t) (vr : VideoReader) (r : Z) : result (list Z) :=
  '(n, idxs) ← arange_idxs self vr r;
  mret (retile idxs n).

(** [get_frame_batch]: [(video, vr), idxs]. *)
Definition get_frame_batch (self : t) (r : Z) (vr : VideoReader)
    (resize : option (shape -> shape)) : result ((shape * VideoReader) * list Z) :=
  idxs ← frame_idxs self vr r;
  frames ← vr_get_batch vr idxs;
  video ← rearrange_fhwc frames;
  let video := match resize with Some f => f video | None => video end in
  mret ((video, vr), idxs).

(** [process_video_wrapper] at the attempt that draws [r]. *)
Definition process_video_wrapper (w : world) (self : t) (r : Z) (vid_path : string)
    : result ((shape * VideoReader) * VideoReader * list (list Z)) :=
  process_video w vid_path (use_bucketing self) (width self) (height self)
    (bucket_resize w) (get_frame_batch self r).

(** [get_video_shape]. *)
Definition get_video_shape (self : t) : shape :=
  [n_sample_frames self; 3; 256; 384].

(** [get_audio_shape]: [[1, int(16000 * (n_sample_frames / fps))]]. *)
Definition get_audio_shape (self : t) : result shape :=
  ratio ← Py.truediv (n_sample_frames self) (fps self);
  samples ← Py.int_of_float (Py.Z2F 16000 * ratio)%float;
  mret [1; samples].

(** [audio.size()] for a channels-by-samples tensor. *)
Definition audio_size (audio : list (list Z)) : shape :=
  [Z.of_nat (length audio);
   Z.of_nat (match audio with ch :: _ => length ch | [] => 0%nat end)].

(** The body of the [try] in [__getitem__] (lines 656-659), up to the
    update of [valid_videos]. *)
Definition attempt (w : world) (self : t) (k : nat) (index : Z)
    : result (shape * list (list Z)) :=
  vid_path ← Py.index (video_files self) index;
  '(video, _, audio) ← process_video_wrapper w self (rand_offset w k) vid_path;
  _ ← Py.py_assert (bool_decide (fst video = get_video_shape self));
  expected ← get_audio_shape self;
  _ ← Py.py_assert (bool_decide (audio_size audio = expected));
  mret (fst video, audio).

(** How a loop that may not end is observed with a bound on its turns. *)
Inductive outcome (A : Type) : Type :=
| Returned (a : A)
| Raised (e : exn)
| StillLooping.
Arguments Returned {A} a.
Arguments Raised {A} e.
Arguments StillLooping {A}.

(** The [while True] loop of [__getitem__] (lines 654-663), observed for
    [turns] turns from attempt number [k].  A failed attempt is caught
    and a new index is chosen inside the [except] branch; what
    [random.choice] raises there is not caught by anything. *)
Fixpoint fetch_loop (turns : nat) (w : world) (self : t) (k : nat) (index : Z)
    : outcome (t * Z * shape * list (list Z)) :=
  match turns with
  | O => StillLooping
  | S turns' =>
      match attempt w self k index with
      | Ok (video, audio) =>
          Returned (set_valid_videos self ({[index]} ∪ valid_videos self),
                    index, video, audio)
      | Raise _ =>
          match Py.choice (rand_choice w k) (elements (valid_videos self)) with
          | Ok index' => fetch_loop turns' w self (S k) index'
          | Raise e => Raised e
          end
      end
  end.

(** [path.split('/')[-1]]. *)
Fixpoint last_component (acc : string) (path : string) : string :=
  match path with
  | EmptyString => acc
  | String c rest =>
      if Ascii.eqb c "/" then last_component EmptyString rest
      else last_component (String.append acc (String c EmptyString)) rest
  end.

(** [s[:-4]]. *)
Definition drop_last4 (s : string) : string :=
  String.substring 0 (String.length s - 4) s.

(** The caption of lines 667-671: the sidecar when it exists, else the
    fallback.  Nothing catches a failing read here. *)
Definition read_prompt (w : world) (self : t) (vid_path : string) : result string :=
  let caption_file := Py.replace vid_path ".mp4" ".txt" in
  if path_exists (fs w) caption_file
  then read_file (fs w) caption_file
  else Ok (fallback_prompt self).

(** The dict [__getitem__] returns. *)
Record example : Type := {
  pixel_values : shape;
  prompt_ids : list Z;
  text_prompt : string;
  dataset : string;
  audio_values : list Z;
  ytid : string
}.

(** Lines 665-676, after the loop has ended with [index]. *)
Definition finish (w : world) (self : t) (index : Z) (video : shape)
    (audio : list (list Z)) : result example :=
  vid_path ← Py.index (video_files self) index;
  let ytid := drop_last4 (last_component EmptyString vid_path) in
  prompt ← read_prompt w self vid_path;
  ids ← tokenize w prompt;
  first ← Py.index audio 0;
  mret {| pixel_values := video;
          prompt_ids := ids;
          text_prompt := prompt;
          dataset := "folder";
          audio_values := first;
          ytid := ytid |}.

(** [__getitem__], observed for [turns] turns of its loop: the example
    returned and the object afterwards. *)
Definition getitem (turns : nat) (w : world) (self : t) (index : Z)
    : outcome (example * t) :=
  match fetch_loop turns w self 0 index with
  | Returned (self', index', video, audio) =>
      match finish w self' index' video audio with
      | Ok ex => Returned (ex, self')
      | Raise e => Raised e
      end
  | Raised e => Raised e
  | StillLooping => StillLooping
  end.

End VideoFolderDataset.

(** ** Part V.  Facts about the runtime model *)

Section Runtime.

Context {A B : Type}.

Lemma bind_Ok (m : result A) (k : A -> result B) (b : B) :
  m ≫= k = Ok b -> exists a, m = Ok a /\ k a = Ok b.
Proof. destruct m as [a|e]; simpl; [eauto | discriminate]. Qed.

Lemma bind_Ok_l (m : result A) (k : A -> result B) (a : A) :
  m = Ok a -> m ≫= k = k a.
Proof. intros ->. reflexivity. Qed.

Lemma bind_Raise_l (m : result A) (k : A -> result B) (e : exn) :
  m = Raise e -> m ≫= k = Raise e.
Proof. intros ->. reflexivity. Qed.

Lemma is_ok_false (m : result A) :
  Py.is_ok m = false -> exists e, m = Raise e.
Proof. destruct m; simpl; [discriminate | eauto]. Qed.

Lemma choice_nil (r : Z) : Py.choice r (@nil A) = Raise IndexError.
Proof. reflexivity. Qed.

Lemma length_tile (a : list A) (reps : nat) :
  length (Py.tile a reps) = (reps * length a)%nat.
Proof.
  induction reps as [|reps IH]; simpl; [reflexivity|].
  rewrite length_app, IH. reflexivity.
Qed.

Lemma clip_bound_nonneg (n i : Z) : 0 <= i -> Py.clip_bound n i = Z.min i n.
Proof. intros H. unfold Py.clip_bound. destruct (Z.ltb_spec i 0); [lia | reflexivity]. Qed.

Lemma length_slice (l : list A) (start stop : Z) :
  0 <= start -> start <= stop -> stop <= Z.of_nat (length l) ->
  Z.of_nat (length (Py.slice l start stop)) = stop - start.
Proof.
  intros H0 H1 H2. unfold Py.slice.
  rewrite !clip_bound_nonneg by lia.
  rewrite length_take, length_drop. lia.
Qed.

Lemma slice_to_take (l : list A) (stop : Z) :
  0 <= stop -> Py.slice_to l stop = take (Z.to_nat stop) l.
Proof.
  intros H. unfold Py.slice_to, Py.slice.
  rewrite !clip_bound_nonneg by lia.
  rewrite (Z.min_l 0) by lia. rewrite Z.sub_0_r. change (Z.to_nat 0) with 0%nat.
  rewrite drop_0.
  destruct (Z.le_ge_cases stop (Z.of_nat (length l))).
  - rewrite Z.min_l by lia. reflexivity.
  - rewrite Z.min_r by lia. rewrite Nat2Z.id.
    rewrite !take_ge by lia. reflexivity.
Qed.

End Runtime.

(** Decompose a hypothesis that a chain of binds returned a value. *)
Ltac bind_inv H :=
  let a := fresh "a" in
  let Ha := fresh "H" a in
  apply bind_Ok in H; destruct H as (a & Ha & H).

Lemma int64_wrap_small (z : Z) :
  - 2 ^ 63 <= z < 2 ^ 63 -> Py.int64_wrap z = z.
Proof. intros H. unfold Py.int64_wrap. rewrite Z.mod_small; lia. Qed.

Lemma length_arange (start stop : Z) :
  length (Py.arange start stop) = Z.to_nat (stop - start).
Proof. unfold Py.arange. rewrite length_map, length_seq. reflexivity. Qed.

Lemma length_scale (k : Z) (a : list Z) : length (Py.scale k a) = length a.
Proof. unfold Py.scale. apply length_map. Qed.

Lemma floordiv_Ok (a b q : Z) : Py.floordiv a b = Ok q -> b <> 0 /\ q = a / b.
Proof.
  unfold Py.floordiv. destruct (Z.eqb_spec b 0); [discriminate|].
  intros [= <-]. split; [assumption | reflexivity].
Qed.

(** ** Part VI.  Concrete scenes *)

(** A decoder for a clip of [n] frames of [h] by [w] pixels: a batch is
    decoded when every index is within the clip. *)
Definition reader (n : nat) (avg_fps : float) (h w : Z) : VideoReader :=
  {| vr_len := n;
     vr_avg_fps := avg_fps;
     vr_get_batch := fun idxs =>
       if forallb (fun i => (- Z.of_nat n <=? i) && (i <? Z.of_nat n)) idxs
       then Ok [Z.of_nat (length idxs); h; w; 3]
       else Raise IndexError |}.

(** One second of silence at 16 kHz, mono. *)
Definition one_second : Waveform :=
  {| wf_channels := [repeat 0 (Z.to_nat 16000)]; wf_rate := 16000 |}.

(** A studio where every video is a 100-frame clip at 24 frames per second,
    decoded at the size asked for, every audio file is [one_second], and
    the file system is [files]. *)
Definition studio (files : filesystem) : world :=
  {| fs := files;
     open_video := fun _ size =>
       match size with
       | Some (w, h) => Ok (reader 100 24 h w)
       | None => Ok (reader 100 24 256 384)
       end;
     load_audio := fun _ => Ok one_second;
     bucket_resize := fun _ => Ok (fun s => s);
     json_load := fun _ => Raise DecodeError;
     tokenize := fun _ => Ok [];
     rand_offset := fun _ => 0;
     rand_choice := fun _ => 0 |}.

(** A place where no media file can be opened. *)
Definition wasteland : world :=
  {| fs := fun _ => None;
     open_video := fun _ _ => Raise OSError;
     load_audio := fun _ => Raise OSError;
     bucket_resize := fun _ => Raise OSError;
     json_load := fun _ => Raise DecodeError;
     tokenize := fun _ => Ok [];
     rand_offset := fun _ => 0;
     rand_choice := fun _ => 0 |}.

(** A folder dataset over one clip, 24 frames at 24 frames per second. *)
Definition one_clip (w h : Z) : VideoFolderDataset.t :=
  {| VideoFolderDataset.video_files := ["data/video/clip0000001.mp4"%string];
     VideoFolderDataset.width := w;
     VideoFolderDataset.height := h;
     VideoFolderDataset.n_sample_frames := 24;
     VideoFolderDataset.fps := 24;
     VideoFolderDataset.fallback_prompt := "a video of <*>";
     VideoFolderDataset.use_bucketing := false;
     VideoFolderDataset.valid_videos := ∅ |}.

(** A file system holding one text file. *)
Definition one_file (path : string) (e : entry) : filesystem :=
  fun p => if String.eqb p path then Some e else None.

(** ** Part VII.  Properties of the dataset classes *)

(** *** The manifest-driven dataset *)

Section Manifest.

Import VideoJsonDataset.

Variable w : world.
Variables width height n_sample_frames sample_start_idx frame_step : Z.
Variables json_path vid_data_key : string.

Let dataset : t :=
  init w width height n_sample_frames sample_start_idx frame_step json_path vid_data_key.

Let blank : t :=
  {| VideoJsonDataset.vid_data_key := vid_data_key;
     train_data := None;
     VideoJsonDataset.width := 0;
     VideoJsonDataset.height := 0;
     VideoJsonDataset.n_sample_frames := 0;
     VideoJsonDataset.sample_start_idx := 0;
     VideoJsonDataset.frame_step := 0 |}.

(** Whatever goes wrong while loading, [__init__] ends with
    [train_data = None]: the empty list stored by the [except] branch is
    overwritten by the [None] that [load_from_json] returns. *)
Lemma init_failed_load (e : exn) :
  load_from_json_try w blank json_path = Raise e ->
  train_data dataset = None.
Proof.
  intros H. subst dataset. unfold init, load_from_json.
  fold blank. rewrite H. reflexivity.
Qed.

(** A manifest that loads gives one item per clip descriptor. *)
Lemma init_loaded (data : list item) :
  load_from_json_try w blank json_path = Ok data ->
  len dataset = Z.of_nat (length data).
Proof.
  intros H. subst dataset. unfold init, load_from_json, len.
  fold blank. rewrite H. reflexivity.
Qed.

(** C7.  When the manifest path is missing or cannot be read, the
    dataset built from it reports length 0. *)
Theorem len_zero_when_manifest_unreadable :
  Py.is_ok (read_file (fs w) json_path) = false ->
  len dataset = 0.
Proof.
  intros H. apply is_ok_false in H as [e He].
  unfold len. rewrite (init_failed_load e); [reflexivity|].
  unfold load_from_json_try. rewrite He. reflexivity.
Qed.

End Manifest.

Lemma len_zero_when_manifest_unreadable_witness :
  VideoJsonDataset.len
    (VideoJsonDataset.init wasteland 256 256 4 1 1 "missing.json" "video_path") = 0.
Proof.
  apply (len_zero_when_manifest_unreadable wasteland 256 256 4 1 1
           "missing.json" "video_path").
  reflexivity.
Defined.


(** *** The folder dataset: shapes, frame indices, the retry loop *)

Section Folder.

Import VideoFolderDataset.

(** The shapes do not read [width] or [height]. *)
Lemma get_video_shape_set_size (self : t) (w h : Z) :
  get_video_shape (set_size self w h) = get_video_shape self.
Proof. reflexivity. Qed.

Lemma get_audio_shape_set_size (self : t) (w h : Z) :
  get_audio_shape (set_size self w h) = get_audio_shape self.
Proof. reflexivity. Qed.

(** An attempt that succeeds has passed both assertions. *)
Lemma attempt_validated (w : world) (self : t) (k : nat) (index : Z)
    (video : shape) (audio : list (list Z)) :
  attempt w self k index = Ok (video, audio) ->
  video = get_video_shape self /\ get_audio_shape self = Ok (audio_size audio).
Proof.
  unfold attempt. intros H.
  bind_inv H. bind_inv H. destruct a0 as [[[v vr'] vr] au]. simpl in H.
  bind_inv H. bind_inv H. bind_inv H. simpl in H. injection H as <- <-.
  unfold Py.py_assert in Ha1, Ha3.
  destruct (bool_decide (v = get_video_shape self)) eqn:Hv; [|discriminate].
  destruct (bool_decide (audio_size au = a1)) eqn:Hau; [|discriminate].
  apply bool_decide_eq_true in Hv, Hau.
  split; [exact Hv | rewrite Ha2, Hau; reflexivity].
Qed.

(** C9 (as the code behaves).  The shapes every item is validated against
    are [[n_sample_frames, 3, 256, 384]] for the video and
    [[1, int(16000 * (n_sample_frames / fps))]] for the audio, the quotient
    being rounded to a double before it is multiplied, whatever the
    configured width and height; an attempt succeeds only with exactly
    these shapes. *)
Theorem expected_shapes_ignore_size (self : t) (w h : Z) :
  get_video_shape (set_size self w h) = [n_sample_frames self; 3; 256; 384]
  /\ get_audio_shape (set_size self w h) =
       (ratio ← Py.truediv (n_sample_frames self) (fps self);
        samples ← Py.int_of_float (Py.Z2F 16000 * ratio)%float;
        mret [1; samples])
  /\ (forall (env : world) (k : nat) (index : Z) video audio,
        attempt env (set_size self w h) k index = Ok (video, audio) ->
        video = [n_sample_frames self; 3; 256; 384]
        /\ get_audio_shape self = Ok (audio_size audio)).
Proof.
  split; [reflexivity|]. split; [reflexivity|].
  intros env k index video audio H.
  apply attempt_validated in H. exact H.
Qed.

(** With the defaults of the constructor (16 frames at 8 frames per
    second) the audio shape is [[1, 32000]]. *)
Example get_audio_shape_default (self : t) :
  n_sample_frames self = 16 -> fps self = 8 ->
  get_audio_shape self = Ok [1; 32000].
Proof. intros Hn Hf. unfold get_audio_shape. rewrite Hn, Hf. vm_compute. reflexivity. Qed.

(** A clip decoded at 384 by 256 passes the validation ... *)
Example attempt_studio_ok :
  is_ok (attempt (studio (fun _ => None)) (one_clip 384 256) 0 0) = true.
Proof. vm_compute. reflexivity. Qed.

(** ... and one decoded at the default 256 by 256 fails it. *)
Example attempt_studio_default_size :
  attempt (studio (fun _ => None)) (one_clip 256 256) 0 0 = Raise AssertionError.
Proof. vm_compute. reflexivity. Qed.

(** The clamped stride is at least 1 once the division by it succeeds. *)
Lemma every_nth_frame_pos (native_fps : float) (fps vr_length nth eff : Z) :
  0 <= vr_length ->
  every_nth_frame native_fps fps vr_length = Ok nth ->
  effective_length vr_length nth = Ok eff ->
  1 <= nth <= vr_length /\ eff = vr_length / nth /\ 0 <= eff.
Proof.
  intros HL H He. unfold every_nth_frame in H.
  bind_inv H. bind_inv H. simpl in H. injection H as <-.
  apply floordiv_Ok in He as [Hne ->].
  assert (1 <= Z.min vr_length (Z.max 1 a0) <= vr_length) as Hb by lia.
  split; [exact Hb|]. split; [reflexivity|].
  apply Z.div_pos; lia.
Qed.

(** C10 (as the code behaves).  For a requested frame count that is not
    negative, the array
    built from [np.arange] has exactly the (possibly shrunk) number of
    frames, so the test [len(idxs) != n_sample_frames] is false and the
    index array is never tiled. *)
Theorem tiling_never_needed (self : t) (vr : VideoReader) (r : Z) (n : Z) (idxs : list Z) :
  0 <= n_sample_frames self ->
  arange_idxs self vr r = Ok (n, idxs) ->
  Z.of_nat (length idxs) = n
  /\ length_differs idxs n = false
  /\ retile idxs n = idxs.
Proof.
  intros Hn H. unfold arange_idxs in H.
  bind_inv H. bind_inv H. bind_inv H. simpl in H. injection H as <- <-.
  destruct (every_nth_frame_pos _ _ _ _ _ (Nat2Z.is_nonneg _) Ha Ha0) as (_ & _ & Heff).
  assert (0 <= shrink a0 (n_sample_frames self)) as Hs.
  { unfold shrink. destruct (Z.ltb_spec a0 (n_sample_frames self)); lia. }
  assert (Z.of_nat (length (Py.scale a (Py.arange a1 (a1 + shrink a0 (n_sample_frames self)))))
          = shrink a0 (n_sample_frames self)) as Hlen.
  { rewrite length_scale, length_arange. lia. }
  split; [exact Hlen|].
  assert (length_differs (Py.scale a (Py.arange a1 (a1 + shrink a0 (n_sample_frames self))))
            (shrink a0 (n_sample_frames self)) = false) as Hd.
  { unfold length_differs. rewrite Hlen, Z.eqb_refl. reflexivity. }
  split; [exact Hd|].
  unfold retile. rewrite Hd. reflexivity.
Qed.

End Folder.

Lemma tiling_never_needed_witness :
  Z.of_nat (length (Py.scale 1 (Py.arange 0 24))) = 24
  /\ VideoFolderDataset.length_differs (Py.scale 1 (Py.arange 0 24)) 24 = false
  /\ VideoFolderDataset.retile (Py.scale 1 (Py.arange 0 24)) 24 = Py.scale 1 (Py.arange 0 24).
Proof.
  apply (tiling_never_needed (one_clip 384 256) (reader 100 24 256 384) 0).
  - vm_compute. discriminate.
  - vm_compute. reflexivity.
Defined.

(** *** The retry loop of [VideoFolderDataset.__getitem__] *)

Section Retry.

Import VideoFolderDataset.

Variable w : world.

(** The reading of "the fetch hangs": however long the loop is observed,
    it has neither returned nor raised. *)
Definition hangs (self : t) (index : Z) : Prop :=
  forall turns, getitem turns w self index = StillLooping.

(** The loop does not change [self] before it succeeds, so a failing first
    attempt with no valid index ends the call at once. *)
Lemma fetch_loop_no_valid (self : t) (turns k : nat) (index : Z) (e : exn) :
  attempt w self k index = Raise e ->
  valid_videos self = ∅ ->
  fetch_loop (S turns) w self k index = Raised IndexError.
Proof.
  intros Hfail Hvalid. simpl. rewrite Hfail, Hvalid, elements_empty.
  reflexivity.
Qed.

(** C1 (as the code behaves).  When the first attempt fails and no index
    has succeeded yet, [__getitem__] does not loop: [random.choice] is
    called on an empty list inside the [except] branch, and the
    [IndexError] it raises reaches the caller. *)
Theorem getitem_no_valid_raises (self : t) (turns : nat) (index : Z) (e : exn) :
  attempt w self 0 index = Raise e ->
  valid_videos self = ∅ ->
  getitem (S turns) w self index = Raised IndexError.
Proof.
  intros Hfail Hvalid. unfold getitem.
  rewrite (fetch_loop_no_valid self turns 0 index e Hfail Hvalid).
  reflexivity.
Qed.

(** The loop is unbounded only when some index has succeeded before and
    every attempt fails from now on. *)
Lemma fetch_loop_all_fail (self : t) (turns k : nat) (index : Z) :
  valid_videos self <> ∅ ->
  (forall k' i, is_ok (attempt w self k' i) = false) ->
  fetch_loop turns w self k index = StillLooping.
Proof.
  intros Hne Hfail. revert k index.
  induction turns as [|turns IH]; intros k index; [reflexivity|].
  simpl. destruct (is_ok_false _ (Hfail k index)) as [e ->].
  unfold Py.choice.
  destruct (elements (valid_videos self)) as [|x l] eqn:Hel.
  - apply elements_empty_inv in Hel. apply leibniz_equiv in Hel. contradiction.
  - assert (0 <= rand_choice w k mod Z.of_nat (length (x :: l))
              < Z.of_nat (length (x :: l))) as Hb
      by (apply Z.mod_pos_bound; simpl; lia).
    destruct ((x :: l) !! Z.to_nat (rand_choice w k mod Z.of_nat (length (x :: l))))
      as [i|] eqn:Hi.
    + apply IH.
    + apply lookup_ge_None in Hi. lia.
Qed.

End Retry.

(** C1, refuted as stated: in [wasteland] the first attempt fails and no
    index is valid, yet the call ends after one turn with [IndexError]
    instead of hanging. *)
Lemma getitem_no_valid_does_not_hang :
  VideoFolderDataset.attempt wasteland (one_clip 384 256) 0 0 = Raise OSError
  /\ VideoFolderDataset.valid_videos (one_clip 384 256) = ∅
  /\ VideoFolderDataset.getitem 1 wasteland (one_clip 384 256) 0
     = VideoFolderDataset.Raised IndexError
  /\ ~ hangs wasteland (one_clip 384 256) 0.
Proof.
  split; [vm_compute; reflexivity|].
  split; [reflexivity|].
  split; [vm_compute; reflexivity|].
  intros H. specialize (H 1%nat). vm_compute in H. discriminate.
Qed.

Lemma getitem_no_valid_raises_witness :
  VideoFolderDataset.getitem 3 wasteland (one_clip 384 256) 0
  = VideoFolderDataset.Raised IndexError.
Proof.
  apply (getitem_no_valid_raises wasteland (one_clip 384 256) 2 0 OSError).
  - vm_compute. reflexivity.
  - reflexivity.
Defined.

(** *** The frame-window selector *)

(** The arithmetic progression [first, first + step, ...] of [count] terms. *)
Definition progression (first step : Z) (count : nat) : list Z :=
  map (fun k : nat => first + Z.of_nat k * step) (seq 0 count).

Section Selector.

(** [sorted((0, start_idx, max_range))[1]] clamps the start into the clip. *)
Lemma sorted_middle (start_idx max_range : Z) :
  0 <= max_range ->
  Py.index (Py.sorted [0; start_idx; max_range]) 1
  = Ok (Z.max 0 (Z.min start_idx max_range)).
Proof.
  intros HL. unfold Py.sorted. simpl.
  destruct (Z.leb_spec start_idx max_range); simpl;
    [destruct (Z.leb_spec 0 start_idx) | destruct (Z.leb_spec 0 max_range)];
    simpl; try lia.
  - unfold Py.index. simpl. f_equal. lia.
  - destruct (Z.leb_spec 0 max_range); [|lia].
    unfold Py.index. simpl. f_equal. lia.
  - unfold Py.index. simpl. f_equal. lia.
Qed.

Lemma range_progression (first stop step : Z) :
  step <> 0 ->
  Py.range first stop step = Ok (progression first step (Py.range_len first stop step)).
Proof.
  intros H. unfold Py.range. destruct (Z.eqb_spec step 0); [contradiction|].
  reflexivity.
Qed.

Lemma length_progression (first step : Z) (count : nat) :
  length (progression first step count) = count.
Proof. unfold progression. rewrite length_map, length_seq. reflexivity. Qed.

Lemma take_progression (first step : Z) (count n : nat) :
  take n (progression first step count) = progression first step (Nat.min n count).
Proof. unfold progression. rewrite List.firstn_map, take_seq. reflexivity. Qed.

Lemma progression_from_sorted (first step : Z) (count start : nat) :
  0 < step ->
  StronglySorted Z.lt (map (fun k : nat => first + Z.of_nat k * step) (seq start count)).
Proof.
  intros Hs. revert start. induction count as [|count IH]; intros start; simpl.
  - constructor.
  - constructor; [apply IH|].
    apply List.Forall_forall. intros y Hy.
    apply List.in_map_iff in Hy as (k & <- & Hk).
    apply List.in_seq in Hk. nia.
Qed.

Lemma progression_sorted (first step : Z) (count : nat) :
  0 < step -> StronglySorted Z.lt (progression first step count).
Proof. intros Hs. apply progression_from_sorted. exact Hs. Qed.

(** Every term of a range with a positive step lies between its ends. *)
Lemma progression_bounds (first stop step : Z) (count : nat) :
  0 < step -> (count <= Py.range_len first stop step)%nat ->
  Forall (fun i => first <= i < stop) (progression first step count).
Proof.
  intros Hs Hc. apply List.Forall_forall. intros y Hy.
  apply List.in_map_iff in Hy as (k & <- & Hk). apply List.in_seq in Hk.
  unfold Py.range_len in Hc.
  destruct (Z.ltb_spec 0 step); [|lia].
  destruct (Z.ltb_spec first stop); [|lia].
  assert (Z.of_nat k <= (stop - first - 1) / step) as Hk'.
  { assert (0 <= (stop - first - 1) / step) by (apply Z.div_pos; lia). lia. }
  assert (step * ((stop - first - 1) / step) <= stop - first - 1)
    by (apply Z.mul_div_le; lia).
  nia.
Qed.

(** How many terms a range with a positive step has. *)
Lemma range_len_fits (first stop step n : Z) :
  0 < step -> 1 <= n ->
  (n <= Z.of_nat (Py.range_len first stop step) <-> first + (n - 1) * step < stop).
Proof.
  intros Hs Hn. unfold Py.range_len.
  destruct (Z.ltb_spec 0 step); [|lia].
  destruct (Z.ltb_spec first stop) as [Hlt|Hge].
  - assert (0 <= (stop - first - 1) / step) by (apply Z.div_pos; lia).
    rewrite Z2Nat.id by lia. split; intros H1.
    + assert (step * ((stop - first - 1) / step) <= stop - first - 1)
        by (apply Z.mul_div_le; lia).
      nia.
    + assert (n - 1 <= (stop - first - 1) / step)
        by (apply Z.div_le_lower_bound; lia).
      lia.
  - simpl. split; intros H1; [lia | nia].
Qed.

(** C2 (as the code behaves).  For a step of at least 1 and a frame count
    that is not negative, [get_video_frames] returns the arithmetic
    progression that starts at the start index clamped into [[0, L]]: at
    most [max_frames] indices, strictly increasing, each within [[0, L)];
    exactly [max_frames] of them precisely when the whole window fits
    before the end of the clip. *)
Theorem get_video_frames_window (vr : VideoReader) (start_idx sample_rate max_frames : Z) :
  1 <= sample_rate -> 0 <= max_frames ->
  exists idxs,
    get_video_frames vr start_idx sample_rate max_frames = Ok idxs
    /\ idxs = progression (Z.max 0 (Z.min start_idx (Z.of_nat (vr_len vr))))
                sample_rate (length idxs)
    /\ Z.of_nat (length idxs) <= max_frames
    /\ StronglySorted Z.lt idxs
    /\ Forall (fun i => 0 <= i < Z.of_nat (vr_len vr)) idxs
    /\ (Z.of_nat (length idxs) = max_frames <->
        max_frames = 0 \/
        Z.max 0 (Z.min start_idx (Z.of_nat (vr_len vr))) + (max_frames - 1) * sample_rate
          < Z.of_nat (vr_len vr)).
Proof.
  intros Hs Hn.
  set (L := Z.of_nat (vr_len vr)).
  set (first := Z.max 0 (Z.min start_idx L)).
  set (total := Py.range_len first L sample_rate).
  exists (progression first sample_rate (Nat.min (Z.to_nat max_frames) total)).
  assert (get_video_frames vr start_idx sample_rate max_frames
          = Ok (progression first sample_rate (Nat.min (Z.to_nat max_frames) total))) as Hrun.
  { unfold get_video_frames. fold L.
    rewrite (bind_Ok_l _ _ _ (sorted_middle start_idx L (Nat2Z.is_nonneg _))).
    fold first. rewrite (bind_Ok_l _ _ _ (range_progression first L sample_rate ltac:(lia))).
    fold total. simpl. rewrite slice_to_take by lia. rewrite take_progression.
    reflexivity. }
  rewrite length_progression.
  split; [exact Hrun|]. split; [reflexivity|]. split; [lia|].
  split; [apply progression_sorted; lia|].
  split.
  - eapply Forall_impl.
    + apply (progression_bounds first L sample_rate); [lia|]. fold total. lia.
    + intros i Hi. simpl in Hi. subst first. lia.
  - destruct (Z.eq_dec max_frames 0) as [->|Hne].
    + simpl. split; intros _; [left; reflexivity | reflexivity].
    + pose proof (range_len_fits first L sample_rate max_frames ltac:(lia) ltac:(lia)) as Hfit.
      fold total in Hfit. split.
      * intros Hlen. right. apply Hfit. lia.
      * intros [H0|Hlt]; [contradiction|]. apply Hfit in Hlt. lia.
Qed.

End Selector.

(** C2, refuted as stated: a 10-frame clip, 4 frames asked for with step 1
    from index 8; the request satisfies [n <= L], and only 2 indices
    come back. *)
Lemma get_video_frames_short_window :
  4 <= Z.of_nat (vr_len (reader 10 30 256 384))
  /\ get_video_frames (reader 10 30 256 384) 8 1 4 = Ok [8; 9].
Proof. split; [vm_compute; discriminate | vm_compute; reflexivity]. Qed.

(** A step larger than 1 shortens the window in the same way. *)
Example get_video_frames_wide_step :
  get_video_frames (reader 10 30 256 384) 0 3 10 = Ok [0; 3; 6; 9].
Proof. vm_compute. reflexivity. Qed.

Lemma get_video_frames_window_witness :
  exists idxs,
    get_video_frames (reader 10 30 256 384) 2 2 4 = Ok idxs
    /\ idxs = progression (Z.max 0 (Z.min 2 (Z.of_nat (vr_len (reader 10 30 256 384)))))
                2 (length idxs)
    /\ Z.of_nat (length idxs) <= 4
    /\ StronglySorted Z.lt idxs
    /\ Forall (fun i => 0 <= i < Z.of_nat (vr_len (reader 10 30 256 384))) idxs
    /\ (Z.of_nat (length idxs) = 4 <->
        4 = 0 \/
        Z.max 0 (Z.min 2 (Z.of_nat (vr_len (reader 10 30 256 384)))) + (4 - 1) * 2
          < Z.of_nat (vr_len (reader 10 30 256 384))).
Proof. apply (get_video_frames_window (reader 10 30 256 384) 2 2 4); lia. Defined.

(** *** The audio aligner *)

Section Aligner.

(** Whether the float computation of the window start agrees with integer
    division, at 16 kHz. *)
Definition start_is_exact (i0 : Z) : bool :=
  match audio_start 16000 i0 with
  | Ok start => start =? 16000 * i0 / 30
  | Raise _ => false
  end.

Lemma audio_start_16000 (i0 : Z) :
  0 <= i0 <= 270 -> audio_start 16000 i0 = Ok (16000 * i0 / 30).
Proof.
  intros Hi.
  assert (forallb (fun k : nat => start_is_exact (Z.of_nat k)) (seq 0 271) = true) as Hall
    by (vm_compute; reflexivity).
  rewrite List.forallb_forall in Hall.
  specialize (Hall (Z.to_nat i0)). rewrite Z2Nat.id in Hall by lia.
  assert (start_is_exact i0 = true) as Hex by (apply Hall, List.in_seq; lia).
  unfold start_is_exact in Hex.
  destruct (audio_start 16000 i0) as [start|e]; [|discriminate].
  apply Z.eqb_eq in Hex. rewrite Hex. reflexivity.
Qed.

Lemma audio_len_24_16000 : audio_len 24 16000 = Ok 16000.
Proof. vm_compute. reflexivity. Qed.

(** The window cut from one channel, when it lies within the ten seconds
    that are kept. *)
Lemma length_window (ch : list Z) (rate start len : Z) :
  0 <= start -> 0 <= len ->
  start + len <= rate * 10 -> rate * 10 <= Z.of_nat (10 * length ch) ->
  Z.of_nat (length (Py.slice (Py.slice_to (Py.tile ch 10) (rate * 10)) start (start + len)))
  = len.
Proof.
  intros H0 H1 H2 H3.
  rewrite length_slice; [lia | lia | lia |].
  rewrite slice_to_take by lia.
  rewrite length_take, length_tile. lia.
Qed.

(** X4.  For a one-second waveform at 16000 Hz and a
    window of 24 frames that starts at frame [i0 <= 270], the aligner
    returns, for each channel, the [int(24 / 24 * 16000) = 16000] samples
    that start at [int(16000 * i0 / 30)] in the tiled buffer. *)
Theorem align_audio_one_second (wf : Waveform) (idxs : list Z) (i0 : Z) :
  wf_rate wf = 16000 ->
  Forall (fun ch => length ch = Z.to_nat 16000) (wf_channels wf) ->
  length idxs = 24%nat ->
  Py.index idxs 0 = Ok i0 ->
  0 <= i0 <= 270 ->
  exists start len audio,
    audio_start 16000 i0 = Ok start
    /\ audio_len (Z.of_nat (length idxs)) 16000 = Ok len
    /\ start = 16000 * i0 / 30
    /\ len = 16000
    /\ align_audio wf idxs = Ok audio
    /\ audio = map (fun ch => Py.slice (Py.slice_to (Py.tile ch 10) 160000) start (start + len))
                 (wf_channels wf)
    /\ Forall (fun ch => Z.of_nat (length ch) = len) audio.
Proof.
  intros Hrate Hch Hlen Hi0 Hrange.
  exists (16000 * i0 / 30), 16000.
  exists (map (fun ch => Py.slice (Py.slice_to (Py.tile ch 10) 160000)
                           (16000 * i0 / 30) (16000 * i0 / 30 + 16000))
              (wf_channels wf)).
  split; [apply audio_start_16000; exact Hrange|].
  rewrite Hlen. split; [exact audio_len_24_16000|].
  split; [reflexivity|]. split; [reflexivity|].
  assert (0 <= 16000 * i0 / 30 <= 144000) as Hstart.
  { split; [apply Z.div_pos; lia|].
    apply Z.div_le_upper_bound; lia. }
  split; [|split; [reflexivity|]].
  - unfold align_audio. rewrite Hrate, Hi0.
    rewrite (bind_Ok_l _ _ _ eq_refl).
    rewrite (bind_Ok_l _ _ _ (audio_start_16000 i0 Hrange)).
    rewrite Hlen. rewrite (bind_Ok_l _ _ _ audio_len_24_16000).
    rewrite List.map_map, List.map_map. reflexivity.
  - apply List.Forall_forall. intros x Hx.
    apply List.in_map_iff in Hx as (ch & <- & Hin).
    rewrite List.Forall_forall in Hch. specialize (Hch ch Hin).
    change 160000 with (16000 * 10).
    apply length_window; try lia.
Qed.

End Aligner.

(** A 24-frame window that starts at frame 280 asks
    for 16000 samples from sample 149333 on, and the ten-second buffer of
    160000 samples leaves 10667. *)
Lemma align_audio_window_cut_short :
  length (Py.arange 280 304) = 24%nat
  /\ audio_start 16000 280 = Ok 149333
  /\ audio_len 24 16000 = Ok 16000
  /\ align_audio one_second (Py.arange 280 304)
       ≫= (fun audio => Ok (map (fun ch => Z.of_nat (length ch)) audio))
     = Ok [10667].
Proof.
  split; [vm_compute; reflexivity|].
  split; [vm_compute; reflexivity|].
  split; [vm_compute; reflexivity|].
  vm_compute. reflexivity.
Qed.

Lemma align_audio_one_second_witness :
  exists start len audio,
    audio_start 16000 6 = Ok start
    /\ audio_len (Z.of_nat (length (Py.arange 6 30))) 16000 = Ok len
    /\ start = 16000 * 6 / 30
    /\ len = 16000
    /\ align_audio one_second (Py.arange 6 30) = Ok audio
    /\ audio = map (fun ch => Py.slice (Py.slice_to (Py.tile ch 10) 160000) start (start + len))
                 (wf_channels one_second)
    /\ Forall (fun ch => Z.of_nat (length ch) = len) audio.
Proof.
  apply (align_audio_one_second one_second (Py.arange 6 30) 6).
  - reflexivity.
  - constructor; [vm_compute; reflexivity | constructor].
  - vm_compute. reflexivity.
  - vm_compute. reflexivity.
  - lia.
Defined.

(** *** Caption resolution *)

(** The sidecar candidates of [file_path] in the order of [exts]: the path
    with an extension replaced by [.txt], kept when it no longer ends in a
    media extension and exists. *)
Definition sidecar_candidates (fs : filesystem) (file_path : string) (exts : list string)
    : list string :=
  List.filter
    (fun p => negb (existsb (Py.endswith p) exts) && path_exists fs p)
    (map (fun ext => Py.replace file_path ext ".txt") exts).

Section Captions.

Variable fs : filesystem.
Variables text_prompt fallback_prompt file_path : string.

(** The loop with [continue] and [break] picks the first candidate. *)
Lemma find_caption_file_first (exts rest : list string) :
  find_caption_file fs file_path (ExtTuple exts) rest
  = Ok (default EmptyString
          (head (List.filter
                   (fun p => negb (existsb (Py.endswith p) exts) && path_exists fs p)
                   (map (fun ext => Py.replace file_path ext ".txt") rest)))).
Proof.
  induction rest as [|ext rest IH]; [reflexivity|].
  simpl.
  destruct (existsb (Py.endswith (Py.replace file_path ext ".txt")) exts); simpl.
  - exact IH.
  - destruct (path_exists fs (Py.replace file_path ext ".txt")); simpl.
    + reflexivity.
    + exact IH.
Qed.

Lemma sidecar_candidates_exist (exts : list string) (p : string) :
  head (sidecar_candidates fs file_path exts) = Some p -> path_exists fs p = true.
Proof.
  intros H. unfold sidecar_candidates in H.
  assert (In p (List.filter
                  (fun p => negb (existsb (Py.endswith p) exts) && path_exists fs p)
                  (map (fun ext => Py.replace file_path ext ".txt") exts))) as Hin.
  { destruct (List.filter _ _) as [|q l]; [discriminate|].
    simpl in H. injection H as ->. left. reflexivity. }
  apply List.filter_In in Hin as [_ Hin].
  apply andb_true_iff in Hin as [_ Hin]. exact Hin.
Qed.

(** The body of the [try] for a tuple of extensions. *)
Lemma get_text_prompt_try_tuple (exts : list string) :
  get_text_prompt_try fs text_prompt fallback_prompt file_path (ExtTuple exts) true
  = if (1 <? String.length text_prompt)%nat then Ok text_prompt
    else match head (sidecar_candidates fs file_path exts) with
         | None => Ok fallback_prompt
         | Some p => read_file fs p
         end.
Proof.
  unfold get_text_prompt_try.
  destruct (1 <? String.length text_prompt)%nat; [reflexivity|].
  simpl exts_of. rewrite find_caption_file_first.
  fold (sidecar_candidates fs file_path exts).
  rewrite (bind_Ok_l _ _ _ eq_refl).
  destruct (head (sidecar_candidates fs file_path exts)) as [p|] eqn:Hhead; simpl.
  - rewrite (sidecar_candidates_exist exts p Hhead). reflexivity.
  - reflexivity.
Qed.

(** X1.  With captions on and the extensions given as a tuple,
    [get_text_prompt] returns: the explicit prompt when it has more than
    one character; else the text of the first sidecar candidate; the
    fallback when there is no candidate, and the fallback with a printed
    warning when the candidate cannot be read. *)
Theorem get_text_prompt_priority (exts : list string) :
  get_text_prompt fs text_prompt fallback_prompt file_path (ExtTuple exts) true
  = if (1 <? String.length text_prompt)%nat then (text_prompt, [])
    else match head (sidecar_candidates fs file_path exts) with
         | None => (fallback_prompt, [])
         | Some p =>
             match fs p with
             | Some (Readable content) => (content, [])
             | _ => (fallback_prompt, [caption_warning file_path])
             end
         end.
Proof.
  unfold get_text_prompt. rewrite get_text_prompt_try_tuple.
  destruct (1 <? String.length text_prompt)%nat; [reflexivity|].
  destruct (head (sidecar_candidates fs file_path exts)) as [p|] eqn:Hhead;
    [|reflexivity].
  unfold read_file. rewrite (sidecar_candidates_exist exts p Hhead).
  destruct (fs p) as [[content|e]|]; reflexivity.
Qed.

(** X2.  With the extensions given as a list (the default value of the
    parameter), [str.endswith] raises on the first extension tried: a
    prompt of at most one character always resolves to the fallback, with
    a warning, whatever files exist. *)
Theorem get_text_prompt_list_extensions (ext : string) (exts : list string) :
  (String.length text_prompt <= 1)%nat ->
  get_text_prompt fs text_prompt fallback_prompt file_path (ExtList (ext :: exts)) true
  = (fallback_prompt, [caption_warning file_path]).
Proof.
  intros Hlen. unfold get_text_prompt, get_text_prompt_try.
  destruct (Nat.ltb_spec 1 (String.length text_prompt)); [lia|].
  reflexivity.
Qed.

End Captions.

Lemma get_text_prompt_list_extensions_witness :
  get_text_prompt (one_file "cat.txt" (Readable "a cat")) "" "a picture" "cat.png"
    (ExtList [".png"%string; ".jpg"%string]) true
  = ("a picture"%string, [caption_warning "cat.png"]).
Proof.
  apply (get_text_prompt_list_extensions
           (one_file "cat.txt" (Readable "a cat")) "" "a picture" "cat.png" ".png" [".jpg"%string]).
  simpl. lia.
Defined.

(** The same file and a tuple of extensions: the sidecar is found. *)
Example get_text_prompt_sidecar :
  get_text_prompt (one_file "cat.txt" (Readable "a cat")) "" "a picture" "cat.png"
    (ExtTuple [".png"%string; ".jpg"%string]) true
  = ("a cat"%string, []).
Proof. vm_compute. reflexivity. Qed.

(** A prompt of exactly one character is passed over for the sidecar. *)
Example get_text_prompt_one_character :
  get_text_prompt (one_file "cat.txt" (Readable "a cat")) "x" "a picture" "cat.png"
    (ExtTuple [".png"%string; ".jpg"%string]) true
  = ("a cat"%string, []).
Proof. vm_compute. reflexivity. Qed.

(** *** What [VideoFolderDataset.__getitem__] returns *)

Section Items.

Import VideoFolderDataset.

Variable w : world.

Lemma choice_elem_of {A : Type} (r : Z) (l : list A) (a : A) :
  Py.choice r l = Ok a -> a ∈ l.
Proof.
  unfold Py.choice. destruct l as [|x l]; [discriminate|].
  destruct ((x :: l) !! Z.to_nat (r mod Z.of_nat (length (x :: l)))) as [b|] eqn:Hb;
    [|discriminate].
  intros [= <-]. eapply list_elem_of_lookup_2. exact Hb.
Qed.

(** The loop ends only on a successful attempt, at the index asked for or
    at one that succeeded before, and records that index. *)
Lemma fetch_loop_returned (self self' : t) (turns k : nat) (index i : Z)
    (video : shape) (audio : list (list Z)) :
  fetch_loop turns w self k index = Returned (self', i, video, audio) ->
  (i = index \/ i ∈ valid_videos self)
  /\ self' = set_valid_videos self ({[i]} ∪ valid_videos self)
  /\ exists k', attempt w self k' i = Ok (video, audio).
Proof.
  revert k index. induction turns as [|turns IH]; intros k index H; [discriminate|].
  simpl in H. destruct (attempt w self k index) as [[v a]|e] eqn:Hatt.
  - injection H as <- <- <- <-.
    split; [left; reflexivity|]. split; [reflexivity|]. exists k. exact Hatt.
  - destruct (Py.choice (rand_choice w k) (elements (valid_videos self)))
      as [index'|e'] eqn:Hch; [|discriminate].
    apply choice_elem_of, elem_of_elements in Hch.
    destruct (IH _ _ H) as ([->|Hin] & Hself & Hk).
    + split; [right; exact Hch|]. split; assumption.
    + split; [right; exact Hin|]. split; assumption.
Qed.

(** X7.  Whenever [__getitem__] returns, the example was decoded from an
    index [i] that is the index asked for or one that had succeeded
    before: its pixel tensor and audio are what a successful attempt at
    [i] gave, its id and caption are those of the file at [i], and its
    token ids are those of that caption.  That index is added to
    [valid_videos], which only grows; nothing else of the object changes;
    the pixel tensor has the validated shape. *)
Theorem getitem_returned (self self' : t) (turns : nat) (index : Z) (ex : example) :
  getitem turns w self index = Returned (ex, self') ->
  exists i k vid_path audio,
    (i = index \/ i ∈ valid_videos self)
    /\ attempt w self k i = Ok (pixel_values ex, audio)
    /\ Py.index audio 0 = Ok (audio_values ex)
    /\ Py.index (video_files self) i = Ok vid_path
    /\ ytid ex = drop_last4 (last_component EmptyString vid_path)
    /\ read_prompt w self vid_path = Ok (text_prompt ex)
    /\ tokenize w (text_prompt ex) = Ok (prompt_ids ex)
    /\ self' = set_valid_videos self ({[i]} ∪ valid_videos self)
    /\ valid_videos self' = {[i]} ∪ valid_videos self
    /\ valid_videos self ⊆ valid_videos self'
    /\ video_files self' = video_files self
    /\ pixel_values ex = [n_sample_frames self; 3; 256; 384]
    /\ dataset ex = "folder"%string.
Proof.
  unfold getitem. intros H.
  destruct (fetch_loop turns w self 0 index) as [[[[s i] video] audio]|e|] eqn:Hloop;
    [|discriminate|discriminate].
  destruct (finish w s i video audio) as [ex'|e] eqn:Hfin; [|discriminate].
  injection H as <- <-.
  apply fetch_loop_returned in Hloop as (Hi & -> & k' & Hatt).
  pose proof (attempt_validated _ _ _ _ _ _ Hatt) as [Hv _].
  unfold finish in Hfin.
  bind_inv Hfin. bind_inv Hfin. bind_inv Hfin. bind_inv Hfin.
  simpl in Hfin. injection Hfin as <-. simpl.
  exists i, k', a, audio.
  split; [exact Hi|]. split; [exact Hatt|]. split; [exact Ha2|].
  split; [exact Ha|]. split; [reflexivity|]. split; [exact Ha0|].
  split; [exact Ha1|]. split; [reflexivity|]. split; [reflexivity|].
  split; [apply union_subseteq_r|]. split; [reflexivity|].
  split; [exact Hv | reflexivity].
Qed.

(** X8.  The substitution on failure: when the index asked for fails and [j] is
    the only index that succeeded before, the loop turns to [j], whatever
    the random draw, and returns what [j] decodes to. *)
Theorem fetch_loop_substitutes (self : t) (turns : nat) (index j : Z) (e : exn)
    (video : shape) (audio : list (list Z)) :
  attempt w self 0 index = Raise e ->
  valid_videos self = {[j]} ->
  attempt w self 1 j = Ok (video, audio) ->
  fetch_loop (S (S turns)) w self 0 index
  = Returned (set_valid_videos self ({[j]} ∪ valid_videos self), j, video, audio).
Proof.
  intros Hfail Hvalid Hok.
  simpl. rewrite Hfail, Hvalid, elements_singleton.
  unfold Py.choice. simpl length. rewrite Z.mod_1_r. simpl.
  rewrite Hok. reflexivity.
Qed.


(** X10.  The loop is unbounded when some index succeeded before and every
    attempt fails from now on. *)
Theorem getitem_never_ends (self : t) (index : Z) :
  valid_videos self <> ∅ ->
  (forall k i, is_ok (attempt w self k i) = false) ->
  forall turns, getitem turns w self index = StillLooping.
Proof.
  intros Hne Hfail turns. unfold getitem.
  rewrite (fetch_loop_all_fail w self turns 0 index Hne Hfail). reflexivity.
Qed.

End Items.

(** The clip of [one_clip] after index 0 was fetched, and the example that
    the [studio] gives for it. *)
Definition one_clip_fetched : VideoFolderDataset.t :=
  VideoFolderDataset.set_valid_videos (one_clip 384 256) {[0]}.

Definition studio_example : VideoFolderDataset.example :=
  {| VideoFolderDataset.pixel_values := [24; 3; 256; 384];
     VideoFolderDataset.prompt_ids := [];
     VideoFolderDataset.text_prompt := "a video of <*>";
     VideoFolderDataset.dataset := "folder";
     VideoFolderDataset.audio_values := repeat 0 (Z.to_nat 16000);
     VideoFolderDataset.ytid := "clip0000001" |}.

Lemma studio_getitem :
  VideoFolderDataset.getitem 1 (studio (fun _ => None)) (one_clip 384 256) 0
  = VideoFolderDataset.Returned
      (studio_example,
       VideoFolderDataset.set_valid_videos (one_clip 384 256) ({[0]} ∪ ∅)).
Proof. vm_compute. reflexivity. Qed.

Lemma getitem_returned_witness :
  exists i k vid_path audio,
    (i = 0 \/ i ∈ VideoFolderDataset.valid_videos (one_clip 384 256))
    /\ VideoFolderDataset.attempt (studio (fun _ => None)) (one_clip 384 256) k i
       = Ok (VideoFolderDataset.pixel_values studio_example, audio)
    /\ Py.index audio 0 = Ok (VideoFolderDataset.audio_values studio_example)
    /\ Py.index (VideoFolderDataset.video_files (one_clip 384 256)) i = Ok vid_path
    /\ VideoFolderDataset.ytid studio_example
       = VideoFolderDataset.drop_last4
           (VideoFolderDataset.last_component EmptyString vid_path)
    /\ VideoFolderDataset.read_prompt (studio (fun _ => None)) (one_clip 384 256) vid_path
       = Ok (VideoFolderDataset.text_prompt studio_example)
    /\ tokenize (studio (fun _ => None)) (VideoFolderDataset.text_prompt studio_example)
       = Ok (VideoFolderDataset.prompt_ids studio_example)
    /\ VideoFolderDataset.set_valid_videos (one_clip 384 256) ({[0]} ∪ ∅)
       = VideoFolderDataset.set_valid_videos (one_clip 384 256)
           ({[i]} ∪ VideoFolderDataset.valid_videos (one_clip 384 256))
    /\ VideoFolderDataset.valid_videos
         (VideoFolderDataset.set_valid_videos (one_clip 384 256) ({[0]} ∪ ∅))
       = {[i]} ∪ VideoFolderDataset.valid_videos (one_clip 384 256)
    /\ VideoFolderDataset.valid_videos (one_clip 384 256)
       ⊆ VideoFolderDataset.valid_videos
           (VideoFolderDataset.set_valid_videos (one_clip 384 256) ({[0]} ∪ ∅))
    /\ VideoFolderDataset.video_files
         (VideoFolderDataset.set_valid_videos (one_clip 384 256) ({[0]} ∪ ∅))
       = VideoFolderDataset.video_files (one_clip 384 256)
    /\ VideoFolderDataset.pixel_values studio_example
       = [VideoFolderDataset.n_sample_frames (one_clip 384 256); 3; 256; 384]
    /\ VideoFolderDataset.dataset studio_example = "folder"%string.
Proof.
  apply (getitem_returned (studio (fun _ => None)) (one_clip 384 256) _ 1 0 studio_example).
  exact studio_getitem.
Defined.

Lemma fetch_loop_substitutes_witness :
  VideoFolderDataset.fetch_loop 2 (studio (fun _ => None)) one_clip_fetched 0 5
  = VideoFolderDataset.Returned
      (VideoFolderDataset.set_valid_videos one_clip_fetched
         ({[0]} ∪ VideoFolderDataset.valid_videos one_clip_fetched),
       0, [24; 3; 256; 384], [repeat 0 (Z.to_nat 16000)]).
Proof.
  apply (fetch_loop_substitutes (studio (fun _ => None)) one_clip_fetched 0 5 0 IndexError).
  - vm_compute. reflexivity.
  - reflexivity.
  - vm_compute. reflexivity.
Defined.


Lemma wasteland_attempts_fail (self : VideoFolderDataset.t) (k : nat) (i : Z) :
  is_ok (VideoFolderDataset.attempt wasteland self k i) = false.
Proof.
  unfold VideoFolderDataset.attempt.
  destruct (Py.index (VideoFolderDataset.video_files self) i) as [p|e]; simpl; [|reflexivity].
  unfold VideoFolderDataset.process_video_wrapper, process_video.
  destruct (VideoFolderDataset.use_bucketing self); reflexivity.
Qed.

Lemma getitem_never_ends_witness :
  VideoFolderDataset.getitem 1000 wasteland one_clip_fetched 0
  = VideoFolderDataset.StillLooping.
Proof.
  apply (getitem_never_ends wasteland one_clip_fetched 0).
  - intros H. apply (f_equal elements) in H. vm_compute in H. discriminate.
  - intros k i. apply wasteland_attempts_fail.
Defined.

(** *** Rate-based frame selection *)

(** The number of frames that can be had from [L] frames at stride [nth]
    when [n] are asked for, and the last start at which the code lets a
    window begin. *)
Definition usable_frames (L nth n : Z) : Z := Z.min n (L / nth).

Definition start_room (L nth n : Z) : Z :=
  L / nth - usable_frames L nth n * nth - 5.

Section RateSelection.

Import VideoFolderDataset.

Lemma retile_same_length (idxs : list Z) (n : Z) :
  Z.of_nat (length idxs) = n -> retile idxs n = idxs.
Proof.
  intros H. unfold retile, length_differs. rewrite H, Z.eqb_refl. reflexivity.
Qed.

Lemma randint_bounds (r a b x : Z) :
  Py.randint r a b = Ok x -> a <= x <= b.
Proof.
  unfold Py.randint. destruct (Z.ltb_spec b a); [discriminate|].
  intros [= <-]. pose proof (Z.mod_pos_bound r (b - a + 1) ltac:(lia)). lia.
Qed.

Lemma randint_Ok (r a b : Z) :
  a <= b -> exists x, Py.randint r a b = Ok x.
Proof.
  intros H. unfold Py.randint. destruct (Z.ltb_spec b a); [lia|]. eauto.
Qed.

(** The scaled [arange] is the arithmetic progression of stride [nth],
    as long as its terms are far from the ends of [int64]. *)
Lemma scale_arange_progression (nth start n : Z) :
  0 <= nth -> 0 <= start -> nth * (start + n) < 2 ^ 63 ->
  Py.scale nth (Py.arange start (start + n))
  = progression (nth * start) nth (Z.to_nat n).
Proof.
  intros Hnth Hstart Hmax. unfold Py.scale, Py.arange, progression.
  replace (start + n - start) with n by lia.
  rewrite List.map_map. apply List.map_ext_in. intros k Hk.
  apply List.in_seq in Hk.
  rewrite int64_wrap_small; [lia|].
  assert (0 <= nth * (start + Z.of_nat k)) by nia.
  assert (nth * (start + Z.of_nat k) <= nth * (start + n)) by nia.
  lia.
Qed.

(** The run of lines 595-609 when [random.randint] has a range to draw
    from. *)
Lemma arange_idxs_random_start (self : t) (vr : VideoReader) (r nth : Z) :
  0 <= n_sample_frames self ->
  Z.of_nat (vr_len vr) < 2 ^ 63 ->
  every_nth_frame (vr_avg_fps vr) (fps self) (Z.of_nat (vr_len vr)) = Ok nth ->
  0 <= start_room (Z.of_nat (vr_len vr)) nth (n_sample_frames self) ->
  let n := usable_frames (Z.of_nat (vr_len vr)) nth (n_sample_frames self) in
  let start := r mod (start_room (Z.of_nat (vr_len vr)) nth (n_sample_frames self) + 1) in
  arange_idxs self vr r = Ok (n, progression (nth * start) nth (Z.to_nat n))
  /\ 1 <= nth /\ 0 <= start /\ 0 <= n /\ nth * (start + n) <= Z.of_nat (vr_len vr).
Proof.
  unfold start_room, usable_frames.
  set (L := Z.of_nat (vr_len vr)). intros Hn HL Hnth Hroom.
  assert (0 <= L) as HL0 by (subst L; lia).
  assert (1 <= nth <= L) as Hb.
  { unfold every_nth_frame in Hnth. bind_inv Hnth. bind_inv Hnth.
    simpl in Hnth. injection Hnth as <-.
    destruct (Z.eq_dec L 0) as [HL'|HL'].
    - exfalso. rewrite HL' in Hroom.
      replace (Z.min 0 (Z.max 1 a0)) with 0 in Hroom by lia.
      rewrite Z.div_0_r in Hroom. lia.
    - lia. }
  set (eff := L / nth) in *.
  assert (0 <= eff) as Heff by (apply Z.div_pos; lia).
  assert (nth * eff <= L) as Hmul by (apply Z.mul_div_le; lia).
  set (n := Z.min (n_sample_frames self) eff) in *.
  assert (shrink eff (n_sample_frames self) = n) as Hshrink.
  { unfold shrink. destruct (Z.ltb_spec eff (n_sample_frames self)); lia. }
  set (start := r mod (eff - n * nth - 5 + 1)).
  assert (Py.randint r 0 (eff - n * nth - 5) = Ok start) as Hstart.
  { unfold Py.randint. destruct (Z.ltb_spec (eff - n * nth - 5) 0); [lia|].
    subst start. rewrite Z.sub_0_r. reflexivity. }
  pose proof (randint_bounds _ _ _ _ Hstart) as Hsb.
  assert (0 <= n) as Hn0 by lia.
  assert (nth * (start + n) <= L) as Htop by nia.
  simpl. split; [|lia].
  unfold arange_idxs. fold L. rewrite Hnth.
  rewrite (bind_Ok_l _ _ _ eq_refl).
  unfold effective_length, Py.floordiv.
  destruct (Z.eqb_spec nth 0); [lia|]. fold eff.
  rewrite (bind_Ok_l _ _ _ eq_refl). rewrite Hshrink.
  unfold effective_idx. rewrite Hstart.
  rewrite (bind_Ok_l _ _ _ eq_refl).
  rewrite scale_arange_progression by lia. reflexivity.
Qed.

Lemma frame_idxs_of_arange (self : t) (vr : VideoReader) (r n : Z) (idxs : list Z) :
  arange_idxs self vr r = Ok (n, idxs) ->
  Z.of_nat (length idxs) = n ->
  frame_idxs self vr r = Ok idxs.
Proof.
  intros H Hlen. unfold frame_idxs. rewrite H.
  rewrite (bind_Ok_l _ _ _ eq_refl). simpl.
  rewrite retile_same_length by exact Hlen. reflexivity.
Qed.

(** X5.  When a random start can be drawn, that is when
    [effective_length - n * every_nth - 5 >= 0], the frames decoded are
    [n = min(n_sample_frames, len // every_nth)] indices spaced by
    [every_nth], starting at [every_nth * start] for the start drawn from
    [0 .. effective_length - n * every_nth - 5], and every one of them
    lies inside the clip. *)
Theorem frame_idxs_random_start (self : t) (vr : VideoReader) (r nth : Z) :
  0 <= n_sample_frames self ->
  Z.of_nat (vr_len vr) < 2 ^ 63 ->
  every_nth_frame (vr_avg_fps vr) (fps self) (Z.of_nat (vr_len vr)) = Ok nth ->
  0 <= start_room (Z.of_nat (vr_len vr)) nth (n_sample_frames self) ->
  frame_idxs self vr r
  = Ok (progression
          (nth * (r mod (start_room (Z.of_nat (vr_len vr)) nth (n_sample_frames self) + 1)))
          nth
          (Z.to_nat (usable_frames (Z.of_nat (vr_len vr)) nth (n_sample_frames self))))
  /\ Forall (fun i => 0 <= i < Z.of_nat (vr_len vr))
       (progression
          (nth * (r mod (start_room (Z.of_nat (vr_len vr)) nth (n_sample_frames self) + 1)))
          nth
          (Z.to_nat (usable_frames (Z.of_nat (vr_len vr)) nth (n_sample_frames self)))).
Proof.
  intros Hn HL Hnth Hroom.
  destruct (arange_idxs_random_start self vr r nth Hn HL Hnth Hroom)
    as (Hrun & Hnth1 & Hstart & Hn0 & Htop).
  split.
  - apply (frame_idxs_of_arange _ _ _ _ _ Hrun).
    rewrite length_progression. lia.
  - apply List.Forall_forall. intros y Hy.
    apply List.in_map_iff in Hy as (k & <- & Hk). apply List.in_seq in Hk.
    nia.
Qed.

(** X6.  An empty clip never yields a batch: the stride is clamped to 0 and
    [len(vr) // 0] raises, unless the rate computation has raised before. *)
Theorem get_frame_batch_empty_clip (self : t) (vr : VideoReader) (r : Z)
    (resize : option (shape -> shape)) :
  vr_len vr = 0%nat ->
  is_ok (get_frame_batch self r vr resize) = false.
Proof.
  intros HL. unfold get_frame_batch, frame_idxs, arange_idxs. rewrite HL.
  destruct (every_nth_frame (vr_avg_fps vr) (fps self) (Z.of_nat 0)) as [nth|e] eqn:Hnth;
    [|reflexivity].
  unfold every_nth_frame in Hnth. bind_inv Hnth. bind_inv Hnth.
  simpl in Hnth. injection Hnth as <-.
  change (Z.of_nat 0) with 0.
  replace (Z.min 0 (Z.max 1 a0)) with 0 by lia. reflexivity.
Qed.

(** A target rate of 0 makes the rate computation raise. *)
Lemma every_nth_frame_zero_fps (native_fps : float) (vr_length : Z) :
  every_nth_frame native_fps 0 vr_length = Raise ZeroDivisionError.
Proof. reflexivity. Qed.

End RateSelection.

Lemma frame_idxs_random_start_witness :
  VideoFolderDataset.frame_idxs (one_clip 384 256) (reader 100 24 256 384) 79
  = Ok (progression
          (1 * (79 mod (start_room (Z.of_nat (vr_len (reader 100 24 256 384))) 1
                          (VideoFolderDataset.n_sample_frames (one_clip 384 256)) + 1)))
          1
          (Z.to_nat (usable_frames (Z.of_nat (vr_len (reader 100 24 256 384))) 1
                       (VideoFolderDataset.n_sample_frames (one_clip 384 256)))))
  /\ Forall (fun i => 0 <= i < Z.of_nat (vr_len (reader 100 24 256 384)))
       (progression
          (1 * (79 mod (start_room (Z.of_nat (vr_len (reader 100 24 256 384))) 1
                          (VideoFolderDataset.n_sample_frames (one_clip 384 256)) + 1)))
          1
          (Z.to_nat (usable_frames (Z.of_nat (vr_len (reader 100 24 256 384))) 1
                       (VideoFolderDataset.n_sample_frames (one_clip 384 256))))).
Proof.
  apply (frame_idxs_random_start (one_clip 384 256) (reader 100 24 256 384) 79 1).
  - vm_compute. discriminate.
  - vm_compute. reflexivity.
  - vm_compute. reflexivity.
  - vm_compute. discriminate.
Defined.

Lemma get_frame_batch_empty_clip_witness :
  is_ok (VideoFolderDataset.get_frame_batch (one_clip 384 256) 0 (reader 0 24 256 384) None)
  = false.
Proof.
  apply (get_frame_batch_empty_clip (one_clip 384 256) (reader 0 24 256 384) 0 None).
  reflexivity.
Defined.

(** Thirty frames per second sampled at ten, 300 frames, 24 asked for: a
    stride of 3 and a start drawn from 0..23. *)
Example frame_idxs_30_over_10 (self : VideoFolderDataset.t) (r : Z) :
  VideoFolderDataset.n_sample_frames self = 24 ->
  VideoFolderDataset.fps self = 10 ->
  VideoFolderDataset.frame_idxs self (reader 300 30 256 384) r
  = Ok (progression (3 * (r mod 24)) 3 24).
Proof.
  intros Hn Hf.
  destruct (arange_idxs_random_start self (reader 300 30 256 384) r 3) as (Hrun & _).
  - lia.
  - vm_compute. reflexivity.
  - rewrite Hf. vm_compute. reflexivity.
  - rewrite Hn. vm_compute. discriminate.
  - rewrite Hn in Hrun.
    apply (frame_idxs_of_arange _ _ _ _ _ Hrun). reflexivity.
Qed.

(** *** The audio window in general *)

Section Window.

Lemma length_slice_clipped {A : Type} (l : list A) (start stop : Z) :
  0 <= start -> start <= stop ->
  Z.of_nat (length (Py.slice l start stop))
  = Z.min stop (Z.of_nat (length l)) - Z.min start (Z.of_nat (length l)).
Proof.
  intros H0 H1. unfold Py.slice.
  rewrite !clip_bound_nonneg by lia.
  rewrite length_take, length_drop. lia.
Qed.

(** The samples kept of one channel before the window is cut: ten copies,
    at most ten seconds. *)
Lemma length_buffer (ch : list Z) (rate : Z) :
  0 <= rate ->
  Z.of_nat (length (Py.slice_to (Py.tile ch 10) (rate * 10)))
  = Z.min (rate * 10) (10 * Z.of_nat (length ch)).
Proof.
  intros H. rewrite slice_to_take by lia.
  rewrite length_take, length_tile. lia.
Qed.

(** A slice with bounds that are not negative is a [take] of a [drop]. *)
Lemma slice_take_drop {A : Type} (l : list A) (start stop : Z) :
  0 <= start -> start <= stop ->
  Py.slice l start stop = take (Z.to_nat (stop - start)) (drop (Z.to_nat start) l).
Proof.
  intros H0 H1. unfold Py.slice. rewrite !clip_bound_nonneg by lia.
  destruct (Z.le_gt_cases start (Z.of_nat (length l))) as [Hin|Hout].
  - rewrite (Z.min_l start) by lia.
    destruct (Z.le_gt_cases stop (Z.of_nat (length l))).
    + rewrite Z.min_l by lia. reflexivity.
    + rewrite Z.min_r by lia.
      rewrite !take_ge by (rewrite length_drop; lia). reflexivity.
  - rewrite !drop_ge by lia. rewrite !take_nil. reflexivity.
Qed.

(** X3.  For every waveform and frame window, each channel of the aligned
    audio is the part of the requested window [[start, start + len)] that
    lies inside the buffer, the first [10 * rate] samples of ten copies
    of the channel: the samples [buffer[start + j]] for [j < len] as far
    as the buffer goes.  So it never holds more than [len] samples, and
    exactly [len] when the window ends inside the buffer. *)
Theorem align_audio_lengths (wf : Waveform) (idxs : list Z) (i0 start len : Z) :
  0 <= wf_rate wf ->
  Py.index idxs 0 = Ok i0 ->
  audio_start (wf_rate wf) i0 = Ok start ->
  audio_len (Z.of_nat (length idxs)) (wf_rate wf) = Ok len ->
  0 <= start -> 0 <= len ->
  exists audio,
    align_audio wf idxs = Ok audio
    /\ audio
       = map (fun ch =>
                take (Z.to_nat len)
                  (drop (Z.to_nat start)
                     (take (Z.to_nat (wf_rate wf * 10)) (Py.tile ch 10))))
           (wf_channels wf)
    /\ Forall2
         (fun ch out =>
            forall j : nat,
              (j < Z.to_nat len)%nat ->
              out !! j
              = take (Z.to_nat (wf_rate wf * 10)) (Py.tile ch 10) !! (Z.to_nat start + j)%nat)
         (wf_channels wf) audio
    /\ Forall2
         (fun ch out =>
            let buffer := Z.min (wf_rate wf * 10) (10 * Z.of_nat (length ch)) in
            Z.of_nat (length out) = Z.min (start + len) buffer - Z.min start buffer
            /\ Z.of_nat (length out) <= len
            /\ (start + len <= buffer -> Z.of_nat (length out) = len))
         (wf_channels wf) audio.
Proof.
  intros Hrate Hi0 Hstart Hlen Hs Hl.
  assert (forall ch : list Z,
            Py.slice (Py.slice_to (Py.tile ch 10) (wf_rate wf * 10)) start (start + len)
            = take (Z.to_nat len)
                (drop (Z.to_nat start)
                   (take (Z.to_nat (wf_rate wf * 10)) (Py.tile ch 10)))) as Hwindow.
  { intros ch. rewrite slice_take_drop by lia. rewrite slice_to_take by lia.
    replace (start + len - start) with len by lia. reflexivity. }
  exists (map (fun ch => Py.slice (Py.slice_to (Py.tile ch 10) (wf_rate wf * 10))
                           start (start + len))
              (wf_channels wf)).
  split; [|split; [|split]].
  - unfold align_audio. rewrite Hi0. rewrite (bind_Ok_l _ _ _ eq_refl).
    rewrite Hstart. rewrite (bind_Ok_l _ _ _ eq_refl).
    rewrite Hlen. rewrite (bind_Ok_l _ _ _ eq_refl).
    rewrite List.map_map, List.map_map. reflexivity.
  - apply List.map_ext. exact Hwindow.
  - induction (wf_channels wf) as [|ch chs IH]; cbn [map]; constructor; [|exact IH].
    intros j Hj. rewrite Hwindow. rewrite lookup_take_lt by exact Hj.
    apply lookup_drop.
  - induction (wf_channels wf) as [|ch chs IH]; cbn [map]; constructor; [|exact IH].
    rewrite length_slice_clipped by lia. rewrite length_buffer by lia.
    cbv zeta. lia.
Qed.

End Window.

Lemma align_audio_lengths_witness :
  exists audio,
    align_audio one_second (Py.arange 280 304) = Ok audio
    /\ audio
       = map (fun ch =>
                take (Z.to_nat 16000)
                  (drop (Z.to_nat 149333)
                     (take (Z.to_nat (wf_rate one_second * 10)) (Py.tile ch 10))))
           (wf_channels one_second)
    /\ Forall2
         (fun ch out =>
            forall j : nat,
              (j < Z.to_nat 16000)%nat ->
              out !! j
              = take (Z.to_nat (wf_rate one_second * 10)) (Py.tile ch 10)
                  !! (Z.to_nat 149333 + j)%nat)
         (wf_channels one_second) audio
    /\ Forall2
         (fun ch out =>
            let buffer := Z.min (wf_rate one_second * 10) (10 * Z.of_nat (length ch)) in
            Z.of_nat (length out) = Z.min (149333 + 16000) buffer - Z.min 149333 buffer
            /\ Z.of_nat (length out) <= 16000
            /\ (149333 + 16000 <= buffer -> Z.of_nat (length out) = 16000))
         (wf_channels one_second) audio.
Proof.
  apply (align_audio_lengths one_second (Py.arange 280 304) 280 149333 16000).
  - vm_compute. discriminate.
  - vm_compute. reflexivity.
  - vm_compute. reflexivity.
  - vm_compute. reflexivity.
  - lia.
  - lia.
Defined.

(** *** Chunking one video *)

Section Chunks.

Import SingleVideoDataset.

Variable size : nat.
Hypothesis size_pos : (0 < size)%nat.

(** With enough fuel for the source, the tuples put end to end give the
    source back: nothing is lost and nothing repeated. *)
Lemma chunk_upto_concat (fuel : nat) (it : list Z) :
  (length it < fuel)%nat -> concat (chunk_upto fuel it size) = it.
Proof.
  revert it. induction fuel as [|fuel IH]; intros it Hfuel; [lia|].
  simpl. destruct (take size it) as [|x c] eqn:Htake.
  - destruct it as [|y it]; [reflexivity|].
    destruct size; [lia | discriminate].
  - simpl. rewrite IH.
    + change ((x :: c) ++ drop size it = it).
      rewrite <- Htake. apply take_drop.
    + rewrite length_drop.
      destruct it as [|y it]; [destruct size; discriminate|]. simpl in *. lia.
Qed.

(** The [i]-th tuple is the [i]-th window of [size] items of the source. *)
Lemma chunk_upto_lookup (fuel : nat) (it : list Z) (i : nat) (c : list Z) :
  chunk_upto fuel it size !! i = Some c ->
  c = take size (drop (i * size) it) /\ c <> [].
Proof.
  revert it i c. induction fuel as [|fuel IH]; intros it i c H; [discriminate|].
  simpl in H. destruct (take size it) as [|x t] eqn:Htake; [discriminate|].
  destruct i as [|i]; simpl in H.
  - injection H as <-. simpl. rewrite drop_0. split; [symmetry; exact Htake | discriminate].
  - apply IH in H as [-> Hne]. split; [|exact Hne].
    rewrite drop_drop.
    replace (S i * size)%nat with (size + i * size)%nat by lia. reflexivity.
Qed.

(** The number of tuples is the number of items divided by [size],
    rounded up. *)
Lemma chunk_upto_count (fuel : nat) (it : list Z) :
  (length it < fuel)%nat ->
  (length it <= length (chunk_upto fuel it size) * size < length it + size)%nat.
Proof.
  revert it. induction fuel as [|fuel IH]; intros it Hfuel; [lia|].
  simpl. destruct (take size it) as [|x c] eqn:Htake.
  - destruct it as [|y it]; [simpl; lia|].
    destruct size; [lia | discriminate].
  - assert (it <> []) as Hne by (intros ->; destruct size; discriminate).
    assert (0 < length it)%nat by (destruct it; [contradiction | simpl; lia]).
    specialize (IH (drop size it)). rewrite length_drop in IH.
    simpl. destruct (Nat.le_gt_cases size (length it)).
    + specialize (IH ltac:(lia)). lia.
    + specialize (IH ltac:(lia)).
      replace (length it - size)%nat with 0%nat in IH by lia.
      assert (length (chunk_upto fuel (drop size it) size) = 0)%nat as -> by nia.
      lia.
Qed.

End Chunks.

Section Pruning.

Import SingleVideoDataset.

Variable vr_length : Z.

Lemma delete_for_clean (i : nat) (inner : list Z) (frames : list (list Z)) :
  Forall (fun f => f <= vr_length) inner ->
  delete_for vr_length i inner frames = Ok frames.
Proof.
  induction 1 as [|f inner Hf _ IH]; [reflexivity|].
  simpl. destruct (Z.ltb_spec vr_length f); [lia | exact IH].
Qed.

(** A list without out-of-range frame numbers passes the deletion loop
    unchanged. *)
Lemma prune_from_clean (fuel i : nat) (frames : list (list Z)) :
  Forall (Forall (fun f => f <= vr_length)) frames ->
  prune_from fuel vr_length i frames = Ok frames.
Proof.
  intros Hall. revert i. induction fuel as [|fuel IH]; intros i; [reflexivity|].
  simpl. destruct (frames !! i) as [inner|] eqn:Hi; [|reflexivity].
  rewrite delete_for_clean.
  - rewrite (bind_Ok_l _ _ _ eq_refl). apply IH.
  - rewrite List.Forall_forall in Hall. apply Hall.
    apply list_elem_of_In. eapply list_elem_of_lookup_2. exact Hi.
Qed.

End Pruning.

Section VideoChunks.

Import SingleVideoDataset.

Variable w : world.

Lemma Forall_concat_inv {A : Type} (P : A -> Prop) (ls : list (list A)) :
  Forall P (concat ls) -> Forall (Forall P) ls.
Proof.
  induction ls as [|l ls IH]; simpl; intros H; constructor.
  - apply Forall_app in H as [H _]. exact H.
  - apply IH. apply Forall_app in H as [_ H]. exact H.
Qed.

(** X12.  For a frame step and a chunk size of at least 1, [create_video_chunks]
    cuts [range(1, len(vr), frame_step)] into consecutive windows of
    [n_sample_frames] frame numbers: the chunks put end to end are the
    whole range, chunk [i] is the [i]-th window (only the last can be
    short), their number is the length of the range divided by the chunk
    size and rounded up, every frame number lies in [[1, len(vr))], the
    deletion loop removes nothing, and [__len__] is the number of
    chunks. *)
Theorem create_video_chunks_partition (self : t) (vr : VideoReader) :
  open_video w (single_video_path self) None = Ok vr ->
  1 <= frame_step self ->
  1 <= n_sample_frames self ->
  exists frames,
    create_video_chunks w self = Ok (frames, set_frames self frames)
    /\ len w self = Ok (Z.of_nat (length frames))
    /\ concat frames
       = progression 1 (frame_step self)
           (Py.range_len 1 (Z.of_nat (vr_len vr)) (frame_step self))
    /\ (forall i c, frames !! i = Some c ->
          c = take (Z.to_nat (n_sample_frames self))
                (drop (i * Z.to_nat (n_sample_frames self))
                   (progression 1 (frame_step self)
                      (Py.range_len 1 (Z.of_nat (vr_len vr)) (frame_step self))))
          /\ c <> [])
    /\ (Py.range_len 1 (Z.of_nat (vr_len vr)) (frame_step self)
        <= length frames * Z.to_nat (n_sample_frames self)
        < Py.range_len 1 (Z.of_nat (vr_len vr)) (frame_step self)
          + Z.to_nat (n_sample_frames self))%nat
    /\ Forall (Forall (fun f => 1 <= f < Z.of_nat (vr_len vr))) frames.
Proof.
  intros Hopen Hstep Hsize.
  set (L := Z.of_nat (vr_len vr)).
  set (source := progression 1 (frame_step self) (Py.range_len 1 L (frame_step self))).
  set (size := Z.to_nat (n_sample_frames self)).
  assert (0 < size)%nat as Hpos by (subst size; lia).
  set (frames := chunk_upto (S (length source)) source size).
  assert (concat frames = source) as Hconcat
    by (apply chunk_upto_concat; [exact Hpos | lia]).
  assert (Forall (Forall (fun f => 1 <= f < L)) frames) as Hrange.
  { apply Forall_concat_inv. rewrite Hconcat.
    apply progression_bounds; [lia | reflexivity]. }
  assert (create_video_chunks w self = Ok (frames, set_frames self frames)) as Hrun.
  { unfold create_video_chunks. rewrite Hopen. rewrite (bind_Ok_l _ _ _ eq_refl).
    fold L. rewrite (bind_Ok_l _ _ _ (range_progression 1 L (frame_step self) ltac:(lia))).
    fold source. unfold chunk.
    destruct (Z.ltb_spec (n_sample_frames self) 0); [lia|].
    rewrite (bind_Ok_l _ _ _ eq_refl). fold size. fold frames.
    rewrite prune_from_clean; [reflexivity|].
    eapply Forall_impl; [exact Hrange|].
    intros c Hc. eapply Forall_impl; [exact Hc|]. intros f Hf. simpl in Hf. lia. }
  exists frames. split; [exact Hrun|].
  split; [unfold len; rewrite Hrun; reflexivity|].
  split; [exact Hconcat|].
  split; [intros i c Hi; eapply chunk_upto_lookup; [exact Hpos | exact Hi]|].
  split; [|exact Hrange].
  pose proof (chunk_upto_count size Hpos (S (length source)) source ltac:(lia)) as Hcount.
  fold frames in Hcount.
  assert (length source = Py.range_len 1 L (frame_step self)) as Hls
    by apply length_progression.
  rewrite Hls in Hcount. exact Hcount.
Qed.

(** X13.  A frame step of 0 or a negative chunk size is refused with
    [ValueError], by [range] and by [islice]. *)
Theorem create_video_chunks_bad_arguments (self : t) (vr : VideoReader) :
  open_video w (single_video_path self) None = Ok vr ->
  frame_step self = 0 \/ n_sample_frames self < 0 ->
  create_video_chunks w self = Raise ValueError.
Proof.
  intros Hopen Hbad. unfold create_video_chunks. rewrite Hopen.
  rewrite (bind_Ok_l _ _ _ eq_refl). unfold Py.range.
  destruct (Z.eqb_spec (frame_step self) 0) as [H0|H0]; [reflexivity|].
  destruct Hbad as [Hbad|Hbad]; [contradiction|].
  rewrite (bind_Ok_l _ _ _ eq_refl). unfold chunk.
  destruct (Z.ltb_spec (n_sample_frames self) 0); [reflexivity | lia].
Qed.

(** X14.  A chunk size of 0 gives no chunk at all: the first tuple is already
    the empty sentinel. *)
Theorem create_video_chunks_zero_size (self : t) (vr : VideoReader) :
  open_video w (single_video_path self) None = Ok vr ->
  frame_step self <> 0 ->
  n_sample_frames self = 0 ->
  create_video_chunks w self = Ok ([], set_frames self []).
Proof.
  intros Hopen Hstep Hsize. unfold create_video_chunks. rewrite Hopen.
  rewrite (bind_Ok_l _ _ _ eq_refl).
  rewrite (bind_Ok_l _ _ _ (range_progression 1 _ (frame_step self) Hstep)).
  unfold chunk. rewrite Hsize. reflexivity.
Qed.

End VideoChunks.

(** One video of the [studio], cut into chunks of [size] with step [step]. *)
Definition studio_video (size step : Z) : SingleVideoDataset.t :=
  {| SingleVideoDataset.single_video_path := "clip.mp4";
     SingleVideoDataset.n_sample_frames := size;
     SingleVideoDataset.frame_step := step;
     SingleVideoDataset.frames := [] |}.

Lemma create_video_chunks_partition_witness :
  exists frames,
    SingleVideoDataset.create_video_chunks (studio (fun _ => None)) (studio_video 16 2)
    = Ok (frames, SingleVideoDataset.set_frames (studio_video 16 2) frames)
    /\ SingleVideoDataset.len (studio (fun _ => None)) (studio_video 16 2)
       = Ok (Z.of_nat (length frames))
    /\ concat frames
       = progression 1 (SingleVideoDataset.frame_step (studio_video 16 2))
           (Py.range_len 1 (Z.of_nat (vr_len (reader 100 24 256 384)))
              (SingleVideoDataset.frame_step (studio_video 16 2)))
    /\ (forall i c, frames !! i = Some c ->
          c = take (Z.to_nat (SingleVideoDataset.n_sample_frames (studio_video 16 2)))
                (drop (i * Z.to_nat (SingleVideoDataset.n_sample_frames (studio_video 16 2)))
                   (progression 1 (SingleVideoDataset.frame_step (studio_video 16 2))
                      (Py.range_len 1 (Z.of_nat (vr_len (reader 100 24 256 384)))
                         (SingleVideoDataset.frame_step (studio_video 16 2)))))
          /\ c <> [])
    /\ (Py.range_len 1 (Z.of_nat (vr_len (reader 100 24 256 384)))
          (SingleVideoDataset.frame_step (studio_video 16 2))
        <= length frames * Z.to_nat (SingleVideoDataset.n_sample_frames (studio_video 16 2))
        < Py.range_len 1 (Z.of_nat (vr_len (reader 100 24 256 384)))
            (SingleVideoDataset.frame_step (studio_video 16 2))
          + Z.to_nat (SingleVideoDataset.n_sample_frames (studio_video 16 2)))%nat
    /\ Forall (Forall (fun f => 1 <= f < Z.of_nat (vr_len (reader 100 24 256 384)))) frames.
Proof.
  apply (create_video_chunks_partition (studio (fun _ => None)) (studio_video 16 2)
           (reader 100 24 256 384)).
  - reflexivity.
  - simpl. lia.
  - simpl. lia.
Defined.

Lemma create_video_chunks_bad_arguments_witness :
  SingleVideoDataset.create_video_chunks (studio (fun _ => None)) (studio_video 16 0)
  = Raise ValueError.
Proof.
  apply (create_video_chunks_bad_arguments (studio (fun _ => None)) (studio_video 16 0)
           (reader 100 24 256 384)).
  - reflexivity.
  - left. reflexivity.
Defined.

Lemma create_video_chunks_zero_size_witness :
  SingleVideoDataset.create_video_chunks (studio (fun _ => None)) (studio_video 0 1)
  = Ok ([], SingleVideoDataset.set_frames (studio_video 0 1) []).
Proof.
  apply (create_video_chunks_zero_size (studio (fun _ => None)) (studio_video 0 1)
           (reader 100 24 256 384)).
  - reflexivity.
  - simpl. discriminate.
  - reflexivity.
Defined.

(** A clip of 10 frames in chunks of 4. *)
Example create_video_chunks_10_by_4 (w : world) :
  open_video w "clip.mp4" None = Ok (reader 10 24 256 384) ->
  SingleVideoDataset.create_video_chunks w (studio_video 4 1)
  = Ok ([[1; 2; 3; 4]; [5; 6; 7; 8]; [9]],
        SingleVideoDataset.set_frames (studio_video 4 1) [[1; 2; 3; 4]; [5; 6; 7; 8]; [9]]).
Proof.
  intros H. unfold SingleVideoDataset.create_video_chunks. simpl SingleVideoDataset.single_video_path.
  rewrite H. reflexivity.
Qed.

(** *** Flattening a manifest *)

(** A clip descriptor of the manifest, a group (a video reference with its
    clips), and the JSON they are written as. *)
Record clip : Type := {
  c_frame_index : json;
  c_prompt : json;
  c_clip_path : option json
}.

Definition clip_json (c : clip) : json :=
  JObj (("frame_index"%string, c_frame_index c)
        :: ("prompt"%string, c_prompt c)
        :: match c_clip_path c with
           | Some p => [("clip_path"%string, p)]
           | None => []
           end).

Definition group_json (key : string) (g : json * list clip) : json :=
  JObj [(key, fst g); ("data"%string, JArr (map clip_json (snd g)))].

Definition manifest_json (key : string) (groups : list (json * list clip)) : json :=
  JObj [("data"%string, JArr (map (group_json key) groups))].

(** The entry of [train_data] that a clip of a group becomes. *)
Definition clip_item (key : string) (video : json) (c : clip) : gmap string json :=
  <["clip_path"%string := default JNull (c_clip_path c)]>
    (<["prompt"%string := c_prompt c]>
       (<["frame_index"%string := c_frame_index c]> {[ key := video ]})).

Definition flatten (key : string) (groups : list (json * list clip)) : list (gmap string json) :=
  flat_map (fun g => map (clip_item key (fst g)) (snd g)) groups.

Section Flattening.

Import VideoJsonDataset.

Variable self : t.
Hypothesis key_not_data : vid_data_key self <> "data"%string.

Lemma build_json_dict_clip (g : json * list clip) (c : clip) :
  build_json_dict self (group_json (vid_data_key self) g) (clip_json c)
  = Ok (clip_item (vid_data_key self) (fst g) c).
Proof.
  unfold build_json_dict, clip_json, group_json, clip_item.
  destruct (c_clip_path c) as [p|]; simpl; rewrite String.eqb_refl; reflexivity.
Qed.

Lemma build_nested_clips (g : json * list clip) (cs : list clip) (acc : list item) :
  build_nested self (group_json (vid_data_key self) g) (map clip_json cs) acc
  = Ok (acc ++ map (clip_item (vid_data_key self) (fst g)) cs).
Proof.
  revert acc. induction cs as [|c cs IH]; intros acc; simpl.
  - rewrite app_nil_r. reflexivity.
  - rewrite build_json_dict_clip. rewrite (bind_Ok_l _ _ _ eq_refl).
    rewrite IH, <- app_assoc. reflexivity.
Qed.

Lemma group_data (g : json * list clip) :
  getitem (group_json (vid_data_key self) g) "data" = Ok (JArr (map clip_json (snd g))).
Proof.
  unfold group_json, getitem. simpl.
  destruct (String.eqb_spec (vid_data_key self) "data"); [contradiction | reflexivity].
Qed.

Lemma build_outer_groups (groups : list (json * list clip)) (acc : list item) :
  build_outer self (map (group_json (vid_data_key self)) groups) acc
  = Ok (acc ++ flatten (vid_data_key self) groups).
Proof.
  revert acc. induction groups as [|g groups IH]; intros acc.
  - simpl. rewrite app_nil_r. reflexivity.
  - cbn [map build_outer]. rewrite group_data. rewrite (bind_Ok_l _ _ _ eq_refl).
    rewrite (bind_Ok_l _ _ _ (eq_refl : iterate (JArr (map clip_json (snd g))) = Ok _)).
    rewrite build_nested_clips. rewrite (bind_Ok_l _ _ _ eq_refl).
    rewrite IH, <- app_assoc. reflexivity.
Qed.

(** The four entries of a clip's dict, when the key of the video
    reference is none of the three fixed keys. *)
Lemma clip_item_lookup (key : string) (video : json) (c : clip) :
  key <> "frame_index"%string -> key <> "prompt"%string -> key <> "clip_path"%string ->
  clip_item key video c !! key = Some video
  /\ clip_item key video c !! "frame_index"%string = Some (c_frame_index c)
  /\ clip_item key video c !! "prompt"%string = Some (c_prompt c)
  /\ clip_item key video c !! "clip_path"%string = Some (default JNull (c_clip_path c)).
Proof.
  intros Hf Hp Hc. unfold clip_item. repeat split.
  - rewrite !lookup_insert_ne by congruence. apply lookup_singleton_eq.
  - rewrite !lookup_insert_ne by discriminate. apply lookup_insert_eq.
  - rewrite lookup_insert_ne by discriminate. apply lookup_insert_eq.
  - apply lookup_insert_eq.
Qed.

(** X15.  For a key of the video reference that is none of [data],
    [frame_index], [prompt] and [clip_path], [build_json] turns the
    nested manifest into one entry per clip, in document order, and each
    entry maps the key to its group's video reference, [frame_index] and
    [prompt] to the clip's, and [clip_path] to the clip's or to [None]. *)
Theorem build_json_flattens (groups : list (json * list clip)) :
  vid_data_key self <> "frame_index"%string ->
  vid_data_key self <> "prompt"%string ->
  vid_data_key self <> "clip_path"%string ->
  build_json self (manifest_json (vid_data_key self) groups)
  = Ok (flat_map (fun g => map (clip_item (vid_data_key self) (fst g)) (snd g)) groups)
  /\ (forall video c,
        clip_item (vid_data_key self) video c !! vid_data_key self = Some video
        /\ clip_item (vid_data_key self) video c !! "frame_index"%string
           = Some (c_frame_index c)
        /\ clip_item (vid_data_key self) video c !! "prompt"%string = Some (c_prompt c)
        /\ clip_item (vid_data_key self) video c !! "clip_path"%string
           = Some (default JNull (c_clip_path c))).
Proof.
  intros Hf Hp Hc. split.
  - unfold build_json, manifest_json. simpl.
    apply build_outer_groups.
  - intros video c. apply clip_item_lookup; assumption.
Qed.

End Flattening.

Section ManifestLength.

Import VideoJsonDataset.

Variable w : world.

(** X16.  A manifest that is read and parsed gives a dataset with one item per
    clip descriptor: [__len__] is the total number of clips. *)
Theorem len_counts_clips (width height n_sample_frames sample_start_idx frame_step : Z)
    (json_path key text : string) (groups : list (json * list clip)) :
  key <> "data"%string ->
  read_file (fs w) json_path = Ok text ->
  json_load w text = Ok (manifest_json key groups) ->
  len (init w width height n_sample_frames sample_start_idx frame_step json_path key)
  = Z.of_nat (list_sum (map (fun g => length (snd g)) groups)).
Proof.
  intros Hkey Hread Hparse.
  rewrite (init_loaded w width height n_sample_frames sample_start_idx frame_step
             json_path key (flatten key groups)).
  - f_equal. unfold flatten. clear. induction groups as [|g gs IH]; [reflexivity|].
    simpl. rewrite length_app, length_map, IH. reflexivity.
  - unfold load_from_json_try. rewrite Hread. rewrite (bind_Ok_l _ _ _ eq_refl).
    rewrite Hparse. rewrite (bind_Ok_l _ _ _ eq_refl).
    unfold build_json, manifest_json.
    exact (build_outer_groups
             {| vid_data_key := key; train_data := None; width := 0; height := 0;
                n_sample_frames := 0; sample_start_idx := 0; frame_step := 0 |}
             Hkey groups []).
Qed.

(** X17.  Whatever makes loading fail (a file that cannot be read, text that
    is not JSON, a document without a top-level [data] key), [__init__] ends
    with [train_data = None], not with the empty list stored by the
    [except] branch, and [__len__] is 0. *)
Theorem failed_load_leaves_none (width height n_sample_frames sample_start_idx frame_step : Z)
    (json_path key : string) :
  is_ok (text ← read_file (fs w) json_path;
         json_data ← json_load w text;
         getitem json_data "data") = false ->
  train_data (init w width height n_sample_frames sample_start_idx frame_step json_path key)
  = None
  /\ len (init w width height n_sample_frames sample_start_idx frame_step json_path key) = 0.
Proof.
  intros H.
  assert (exists e, load_from_json_try w
            {| vid_data_key := key; train_data := None; width := 0; height := 0;
               n_sample_frames := 0; sample_start_idx := 0; frame_step := 0 |}
            json_path = Raise e) as [e He].
  { unfold load_from_json_try, build_json.
    destruct (read_file (fs w) json_path) as [text|e]; [|eauto].
    rewrite (bind_Ok_l _ _ _ eq_refl) in H. rewrite (bind_Ok_l _ _ _ eq_refl).
    destruct (json_load w text) as [j|e]; [|eauto].
    rewrite (bind_Ok_l _ _ _ eq_refl) in H. rewrite (bind_Ok_l _ _ _ eq_refl).
    destruct (getitem j "data") as [d|e]; [discriminate | eauto]. }
  pose proof (init_failed_load w width height n_sample_frames sample_start_idx frame_step
                json_path key e He) as Hnone.
  split; [exact Hnone|]. unfold len. rewrite Hnone. reflexivity.
Qed.

End ManifestLength.

(** Two videos with two clips and one clip, and an archive whose only
    file is a manifest that parses to them. *)
Definition sample_groups : list (json * list clip) :=
  [(JStr "videos/a.mp4",
    [{| c_frame_index := JNum 0; c_prompt := JStr "a dog"; c_clip_path := None |};
     {| c_frame_index := JNum 48; c_prompt := JStr "a dog runs";
        c_clip_path := Some (JStr "clips/a_1.mp4") |}]);
   (JStr "videos/b.mp4",
    [{| c_frame_index := JNum 12; c_prompt := JStr "a cat"; c_clip_path := None |}])].

Definition archive : world :=
  {| fs := one_file "train.json" (Readable "{...}");
     open_video := fun _ _ => Raise OSError;
     load_audio := fun _ => Raise OSError;
     bucket_resize := fun _ => Raise OSError;
     json_load := fun _ => Ok (manifest_json "video_path" sample_groups);
     tokenize := fun _ => Ok [];
     rand_offset := fun _ => 0;
     rand_choice := fun _ => 0 |}.

Definition json_dataset (w : world) (path : string) : VideoJsonDataset.t :=
  VideoJsonDataset.init w 256 256 4 1 1 path "video_path".

Lemma build_json_flattens_witness :
  VideoJsonDataset.build_json (json_dataset archive "train.json")
    (manifest_json (VideoJsonDataset.vid_data_key (json_dataset archive "train.json"))
       sample_groups)
  = Ok (flat_map
          (fun g => map (clip_item (VideoJsonDataset.vid_data_key
                                      (json_dataset archive "train.json")) (fst g)) (snd g))
          sample_groups)
  /\ (forall video c,
        clip_item (VideoJsonDataset.vid_data_key (json_dataset archive "train.json")) video c
          !! VideoJsonDataset.vid_data_key (json_dataset archive "train.json") = Some video
        /\ clip_item (VideoJsonDataset.vid_data_key (json_dataset archive "train.json")) video c
             !! "frame_index"%string = Some (c_frame_index c)
        /\ clip_item (VideoJsonDataset.vid_data_key (json_dataset archive "train.json")) video c
             !! "prompt"%string = Some (c_prompt c)
        /\ clip_item (VideoJsonDataset.vid_data_key (json_dataset archive "train.json")) video c
             !! "clip_path"%string = Some (default JNull (c_clip_path c))).
Proof.
  apply (build_json_flattens (json_dataset archive "train.json")).
  - vm_compute. discriminate.
  - vm_compute. discriminate.
  - vm_compute. discriminate.
  - vm_compute. discriminate.
Defined.

Lemma len_counts_clips_witness :
  VideoJsonDataset.len (VideoJsonDataset.init archive 256 256 4 1 1 "train.json" "video_path")
  = Z.of_nat (list_sum (map (fun g => length (snd g)) sample_groups)).
Proof.
  apply (len_counts_clips archive 256 256 4 1 1 "train.json" "video_path" "{...}" sample_groups).
  - discriminate.
  - reflexivity.
  - reflexivity.
Defined.

Lemma failed_load_leaves_none_witness :
  VideoJsonDataset.train_data
    (VideoJsonDataset.init (studio (one_file "train.json" (Readable "not json")))
       256 256 4 1 1 "train.json" "video_path")
  = None
  /\ VideoJsonDataset.len
       (VideoJsonDataset.init (studio (one_file "train.json" (Readable "not json")))
          256 256 4 1 1 "train.json" "video_path") = 0.
Proof.
  apply (failed_load_leaves_none (studio (one_file "train.json" (Readable "not json")))
           256 256 4 1 1 "train.json" "video_path").
  reflexivity.
Defined.

(** ** Part VIII.  Directory listings: images, cached tensors, the catalog *)

(** [sorted(l)] on strings: code-point order. *)
Fixpoint insert_str (x : string) (l : list string) : list string :=
  match l with
  | [] => [x]
  | y :: l' => if String.leb x y then x :: l else y :: insert_str x l'
  end.

Definition sorted_str (l : list string) : list string := foldr insert_str [] l.

(** [[f"{dir}/{x}" for x in names if x.endswith(exts)]]. *)
Definition listed_paths (dir : string) (exts : list string) (names : list string)
    : list string :=
  map (fun x => String.append dir (String.append "/" x))
      (List.filter (fun x => existsb (Py.endswith x) exts) names).

(** What the image and cache datasets need beyond [world]: [os.listdir],
    the two image loaders (shape [c, h, w]) and the bucketing helper. *)
Record image_io : Type := {
  listdir : string -> result (list string);
  read_image : string -> result (Z * Z * Z);
  open_image : string -> result (Z * Z * Z);
  sensible_buckets : Z -> Z -> Z -> Z -> Z * Z
}.

Module ImageDataset.

Definition img_types : list string :=
  [".png"%string; ".jpg"%string; ".jpeg"%string; ".bmp"%string].

Record t : Type := {
  image_dir : list string;
  fallback_prompt : string;
  use_caption : bool;
  single_img_prompt : string;
  width : Z;
  height : Z;
  use_bucketing : bool
}.

(** [get_images_list]. *)
Definition get_images_list (fs : filesystem) (io : image_io) (image_dir : string)
    : result (list string) :=
  if path_exists fs image_dir then
    names ← listdir io image_dir;
    mret (sorted_str (listed_paths image_dir img_types names))
  else mret [EmptyString].

(** [__init__]. *)
Definition init (fs : filesystem) (io : image_io) (width height : Z) (use_caption : bool)
    (image_dir single_img_prompt : string) (use_bucketing : bool) (fallback_prompt : string)
    : result t :=
  files ← get_images_list fs io image_dir;
  mret {| image_dir := files;
          fallback_prompt := fallback_prompt;
          use_caption := use_caption;
          single_img_prompt := single_img_prompt;
          width := width;
          height := height;
          use_bucketing := use_bucketing |}.

(** [__len__]. *)
Definition len (fs : filesystem) (self : t) : result Z :=
  first ← Py.index (image_dir self) 0;
  if path_exists fs first then mret (Z.of_nat (length (image_dir self))) else mret 0.

(** [image_batch]: the shape of the image, the prompt with the lines
    printed while resolving it, and the token ids. *)
Definition image_batch (w : world) (io : image_io) (self : t) (index : Z)
    : result (shape * (string * list string) * list Z) :=
  train_data ← Py.index (image_dir self) index;
  '(c, h, w0) ← match read_image io train_data with
                | Ok img => Ok img
                | Raise _ => open_image io train_data
                end;
  let '(width, height) :=
    if use_bucketing self
    then sensible_buckets io (width self) (height self) w0 h
    else (width self, height self) in
  let img := [1; c; height; width] in
  let prompt := get_text_prompt (fs w) (single_img_prompt self) (fallback_prompt self)
                  train_data (ExtTuple img_types) true in
  prompt_ids ← tokenize w (fst prompt);
  mret (img, prompt, prompt_ids).

Record example : Type := {
  pixel_values : shape;
  prompt_ids : list Z;
  text_prompt : string;
  dataset : string
}.

(** [__getitem__]. *)
Definition getitem (w : world) (io : image_io) (self : t) (index : Z) : result example :=
  '(img, prompt, ids) ← image_batch w io self index;
  mret {| pixel_values := img;
          prompt_ids := ids;
          text_prompt := fst prompt;
          dataset := "image" |}.

End ImageDataset.

Module CachedDataset.

Record t : Type := {
  cache_dir : string;
  cached_data_list : list string
}.

(** [get_files_list]. *)
Definition get_files_list (io : image_io) (cache_dir : string) : result (list string) :=
  names ← listdir io cache_dir;
  mret (sorted_str (listed_paths cache_dir [".pt"%string] names)).

(** [__init__]. *)
Definition init (io : image_io) (cache_dir : string) : result t :=
  files ← get_files_list io cache_dir;
  mret {| cache_dir := cache_dir; cached_data_list := files |}.

(** [__len__]. *)
Definition len (self : t) : Z := Z.of_nat (length (cached_data_list self)).

End CachedDataset.

(** The end of [VideoFolderDataset.__init__] (lines 537-543). *)







Section Sorting.

Lemma insert_str_perm (x : string) (l : list string) :
  Permutation (insert_str x l) (x :: l).
Proof.
  induction l as [|y l IH]; simpl; [reflexivity|].
  destruct (String.leb x y); [reflexivity|].
  rewrite IH. apply perm_swap.
Qed.

Lemma sorted_str_perm (l : list string) : Permutation (sorted_str l) l.
Proof.
  induction l as [|x l IH]; simpl; [reflexivity|].
  rewrite insert_str_perm, IH. reflexivity.
Qed.

Lemma length_sorted_str (l : list string) : length (sorted_str l) = length l.
Proof. apply Permutation_length, sorted_str_perm. Qed.

Lemma insert_str_sorted (x : string) (l : list string) :
  Sorted (fun a b => String.leb a b = true) l ->
  Sorted (fun a b => String.leb a b = true) (insert_str x l).
Proof.
  induction 1 as [|y l Hs IH Hhd]; simpl; [repeat constructor|].
  destruct (String.leb x y) eqn:Hxy.
  - constructor; [constructor; assumption | constructor; exact Hxy].
  - constructor; [exact IH|].
    assert (String.leb y x = true) as Hyx
      by (destruct (String.leb_total x y) as [H|H]; [congruence | exact H]).
    destruct Hhd as [|z l Hyz]; simpl.
    + constructor. exact Hyx.
    + destruct (String.leb x z); constructor; assumption.
Qed.

Lemma sorted_str_sorted (l : list string) :
  Sorted (fun a b => String.leb a b = true) (sorted_str l).
Proof.
  induction l as [|x l IH]; simpl; [constructor|].
  apply insert_str_sorted, IH.
Qed.

Lemma length_listed_paths (dir : string) (exts names : list string) :
  length (listed_paths dir exts names)
  = length (List.filter (fun x => existsb (Py.endswith x) exts) names).
Proof. unfold listed_paths. apply length_map. Qed.


End Sorting.

(** *** The image directory *)

Lemma index_0_cons {A : Type} (x : A) (l : list A) : Py.index (x :: l) 0 = Ok x.
Proof.
  unfold Py.index. cbn [length].
  destruct (Z.ltb_spec 0 (Z.of_nat (S (length l)))); [reflexivity | lia].
Qed.

Section Images.

Import ImageDataset.

Variable fs : filesystem.
Variable io : image_io.

(** X19.  A directory that does not exist gives the one-entry list [['']] and a
    dataset of length 0. *)
Theorem image_len_missing_directory (self : t) (width height : Z) (use_caption : bool)
    (dir prompt : string) (bucketing : bool) (fallback : string) :
  path_exists fs dir = false ->
  init fs io width height use_caption dir prompt bucketing fallback = Ok self ->
  image_dir self = [EmptyString] /\ len fs self = Ok 0.
Proof.
  intros Hdir Hinit. unfold init, get_images_list in Hinit. rewrite Hdir in Hinit.
  simpl in Hinit. injection Hinit as <-. split; reflexivity.
Qed.

(** X20.  A directory that exists and holds no file with an image extension
    gives an empty list, and [__len__] raises [IndexError] on
    [self.image_dir[0]]. *)
Theorem image_len_no_images (self : t) (width height : Z) (use_caption : bool)
    (dir prompt : string) (bucketing : bool) (fallback : string) (names : list string) :
  path_exists fs dir = true ->
  listdir io dir = Ok names ->
  Forall (fun x => existsb (Py.endswith x) img_types = false) names ->
  init fs io width height use_caption dir prompt bucketing fallback = Ok self ->
  image_dir self = [] /\ len fs self = Raise IndexError.
Proof.
  intros Hdir Hls Hnone Hinit.
  unfold init, get_images_list in Hinit. rewrite Hdir, Hls in Hinit.
  simpl in Hinit. injection Hinit as <-. simpl.
  assert (List.filter (fun x => existsb (Py.endswith x) img_types) names = []) as Hf.
  { clear Hls. induction Hnone as [|x l Hx _ IH]; [reflexivity|].
    simpl. simpl in Hx. rewrite Hx. exact IH. }
  unfold listed_paths. rewrite Hf. split; reflexivity.
Qed.

(** X21.  A directory that exists is listed as the paths [dir/name] of the
    names with an image extension, in sorted order; when the first of
    them exists, [__len__] is their number. *)
Theorem image_listing (self : t) (width height : Z) (use_caption : bool)
    (dir prompt : string) (bucketing : bool) (fallback : string) (names : list string) :
  path_exists fs dir = true ->
  listdir io dir = Ok names ->
  init fs io width height use_caption dir prompt bucketing fallback = Ok self ->
  Permutation (image_dir self) (listed_paths dir img_types names)
  /\ Sorted (fun a b => String.leb a b = true) (image_dir self)
  /\ (forall first, head (image_dir self) = Some first ->
        path_exists fs first = true ->
        len fs self
        = Ok (Z.of_nat (length (List.filter (fun x => existsb (Py.endswith x) img_types)
                                  names)))).
Proof.
  intros Hdir Hls Hinit.
  unfold init, get_images_list in Hinit. rewrite Hdir, Hls in Hinit.
  simpl in Hinit. injection Hinit as <-. simpl image_dir.
  split; [apply sorted_str_perm|]. split; [apply sorted_str_sorted|].
  intros first Hhead Hex. unfold len. simpl image_dir.
  destruct (sorted_str (listed_paths dir img_types names)) as [|p l] eqn:Hs;
    [discriminate|].
  simpl in Hhead. injection Hhead as ->.
  assert (length (first :: l)
          = length (List.filter (fun x => existsb (Py.endswith x) img_types) names)) as Hlen
    by (rewrite <- Hs, length_sorted_str, length_listed_paths; reflexivity).
  rewrite index_0_cons. rewrite (bind_Ok_l _ _ _ eq_refl). rewrite Hex, Hlen.
  reflexivity.
Qed.

End Images.

Section ImagePrompts.

Import ImageDataset.

Variable w : world.
Variable io : image_io.

(** X22.  Every example of the image dataset carries the prompt resolved with
    captions on, whatever [use_caption] was set to: the inline prompt
    when it has more than one character, else the text of the first
    readable sidecar, else the fallback.  Without bucketing its pixel
    tensor is one frame of the configured size. *)
Theorem image_getitem_prompt (self : t) (index : Z) (ex : example) :
  getitem w io self index = Ok ex ->
  exists path,
    Py.index (image_dir self) index = Ok path
    /\ text_prompt ex
       = (if (1 <? String.length (single_img_prompt self))%nat then single_img_prompt self
          else match head (sidecar_candidates (fs w) path img_types) with
               | None => fallback_prompt self
               | Some p =>
                   match fs w p with
                   | Some (Readable content) => content
                   | _ => fallback_prompt self
                   end
               end)
    /\ dataset ex = "image"%string
    /\ (use_bucketing self = false ->
        exists c, pixel_values ex = [1; c; height self; width self]).
Proof.
  unfold getitem, image_batch. intros H.
  bind_inv H. destruct a as [[img prompt] ids]. simpl in H. injection H as <-.
  bind_inv Ha. exists a. split; [exact Ha0|].
  bind_inv Ha. destruct a0 as [[c h] w0].
  destruct (if use_bucketing self
            then sensible_buckets io (width self) (height self) w0 h
            else (width self, height self)) as [wd ht] eqn:Hsize.
  bind_inv Ha. simpl in Ha. injection Ha as <- <- <-. simpl.
  split; [|split; [reflexivity|]].
  - unfold get_text_prompt. rewrite get_text_prompt_try_tuple.
    destruct (1 <? String.length (single_img_prompt self))%nat; [reflexivity|].
    destruct (head (sidecar_candidates (fs w) a img_types)) as [p|] eqn:Hhead;
      [|reflexivity].
    unfold read_file. rewrite (sidecar_candidates_exist _ _ _ p Hhead).
    destruct (fs w p) as [[content|e]|]; reflexivity.
  - intros Hb. rewrite Hb in Hsize. injection Hsize as <- <-. exists c. reflexivity.
Qed.

End ImagePrompts.

(** *** Cached tensors *)

Section Cache.

Import CachedDataset.

Variable io : image_io.

(** X23.  The cache dataset lists exactly the names that end in [.pt], as
    [cache_dir/name] in sorted order, and its length is their number. *)
Theorem cached_listing (self : t) (dir : string) (names : list string) :
  listdir io dir = Ok names ->
  init io dir = Ok self ->
  Permutation (cached_data_list self) (listed_paths dir [".pt"%string] names)
  /\ Sorted (fun a b => String.leb a b = true) (cached_data_list self)
  /\ len self
     = Z.of_nat (length (List.filter (fun x => Py.endswith x ".pt") names)).
Proof.
  intros Hls Hinit. unfold init, get_files_list in Hinit. rewrite Hls in Hinit.
  simpl in Hinit. injection Hinit as <-. unfold len. simpl cached_data_list.
  split; [apply sorted_str_perm|]. split; [apply sorted_str_sorted|].
  rewrite length_sorted_str, length_listed_paths. do 2 f_equal.
  apply List.filter_ext. intros x. simpl. apply orb_false_r.
Qed.

End Cache.

(** *** The catalog of the folder dataset *)

Section Catalog.

Variable data_dir : string.
Variable ytids : gset string.
Variables video_names audio_names : list string.
Variable repeat : Z.


End Catalog.

(** A directory with two images, a caption and a stray file, and its
    listing. *)
Definition gallery_fs : filesystem :=
  fun p =>
    if String.eqb p "imgs" then Some (Unreadable OSError)
    else if String.eqb p "imgs/b.png" then Some (Unreadable OSError)
    else if String.eqb p "imgs/a.jpg" then Some (Unreadable OSError)
    else if String.eqb p "imgs/a.txt" then Some (Readable "a red kite")
    else if String.eqb p "empty" then Some (Unreadable OSError)
    else None.

Definition gallery_io : image_io :=
  {| listdir := fun d =>
       if String.eqb d "imgs" then Ok ["b.png"; "a.txt"; "a.jpg"; "notes.md"]%string
       else if String.eqb d "empty" then Ok ["notes.md"%string]
       else Raise FileNotFoundError;
     read_image := fun _ => Ok (3, 480, 640);
     open_image := fun _ => Raise OSError;
     sensible_buckets := fun w h _ _ => (w, h) |}.

Definition gallery (dir : string) (files : list string) : ImageDataset.t :=
  {| ImageDataset.image_dir := files;
     ImageDataset.fallback_prompt := "a picture";
     ImageDataset.use_caption := false;
     ImageDataset.single_img_prompt := "";
     ImageDataset.width := 256;
     ImageDataset.height := 256;
     ImageDataset.use_bucketing := false |}.

Lemma image_len_missing_directory_witness :
  ImageDataset.image_dir (gallery "nowhere" [EmptyString]) = [EmptyString]
  /\ ImageDataset.len gallery_fs (gallery "nowhere" [EmptyString]) = Ok 0.
Proof.
  apply (image_len_missing_directory gallery_fs gallery_io (gallery "nowhere" [EmptyString])
           256 256 false "nowhere" "" false "a picture").
  - reflexivity.
  - reflexivity.
Defined.

Lemma image_len_no_images_witness :
  ImageDataset.image_dir (gallery "empty" []) = []
  /\ ImageDataset.len gallery_fs (gallery "empty" []) = Raise IndexError.
Proof.
  apply (image_len_no_images gallery_fs gallery_io (gallery "empty" [])
           256 256 false "empty" "" false "a picture" ["notes.md"%string]).
  - reflexivity.
  - reflexivity.
  - repeat constructor.
  - reflexivity.
Defined.

Lemma image_listing_witness :
  Permutation (ImageDataset.image_dir (gallery "imgs" ["imgs/a.jpg"; "imgs/b.png"]%string))
    (listed_paths "imgs" ImageDataset.img_types ["b.png"; "a.txt"; "a.jpg"; "notes.md"]%string)
  /\ Sorted (fun a b => String.leb a b = true)
       (ImageDataset.image_dir (gallery "imgs" ["imgs/a.jpg"; "imgs/b.png"]%string))
  /\ (forall first,
        head (ImageDataset.image_dir (gallery "imgs" ["imgs/a.jpg"; "imgs/b.png"]%string))
        = Some first ->
        path_exists gallery_fs first = true ->
        ImageDataset.len gallery_fs (gallery "imgs" ["imgs/a.jpg"; "imgs/b.png"]%string)
        = Ok (Z.of_nat (length (List.filter
                                  (fun x => existsb (Py.endswith x) ImageDataset.img_types)
                                  ["b.png"; "a.txt"; "a.jpg"; "notes.md"]%string)))).
Proof.
  apply (image_listing gallery_fs gallery_io
           (gallery "imgs" ["imgs/a.jpg"; "imgs/b.png"]%string)
           256 256 false "imgs" "" false "a picture").
  - reflexivity.
  - reflexivity.
  - vm_compute. reflexivity.
Defined.

Definition gallery_example : ImageDataset.example :=
  {| ImageDataset.pixel_values := [1; 3; 256; 256];
     ImageDataset.prompt_ids := [];
     ImageDataset.text_prompt := "a red kite";
     ImageDataset.dataset := "image" |}.

Lemma image_getitem_prompt_witness :
  exists path,
    Py.index (ImageDataset.image_dir (gallery "imgs" ["imgs/a.jpg"; "imgs/b.png"]%string)) 0
    = Ok path
    /\ ImageDataset.text_prompt gallery_example
       = (if (1 <? String.length
                     (ImageDataset.single_img_prompt
                        (gallery "imgs" ["imgs/a.jpg"; "imgs/b.png"]%string)))%nat
          then ImageDataset.single_img_prompt
                 (gallery "imgs" ["imgs/a.jpg"; "imgs/b.png"]%string)
          else match head (sidecar_candidates (fs (studio gallery_fs)) path
                             ImageDataset.img_types) with
               | None => ImageDataset.fallback_prompt
                           (gallery "imgs" ["imgs/a.jpg"; "imgs/b.png"]%string)
               | Some p =>
                   match fs (studio gallery_fs) p with
                   | Some (Readable content) => content
                   | _ => ImageDataset.fallback_prompt
                            (gallery "imgs" ["imgs/a.jpg"; "imgs/b.png"]%string)
                   end
               end)
    /\ ImageDataset.dataset gallery_example = "image"%string
    /\ (ImageDataset.use_bucketing (gallery "imgs" ["imgs/a.jpg"; "imgs/b.png"]%string) = false ->
        exists c,
          ImageDataset.pixel_values gallery_example
          = [1; c; ImageDataset.height (gallery "imgs" ["imgs/a.jpg"; "imgs/b.png"]%string);
             ImageDataset.width (gallery "imgs" ["imgs/a.jpg"; "imgs/b.png"]%string)]).
Proof.
  apply (image_getitem_prompt (studio gallery_fs) gallery_io
           (gallery "imgs" ["imgs/a.jpg"; "imgs/b.png"]%string) 0 gallery_example).
  vm_compute. reflexivity.
Defined.

Definition cache_io : image_io :=
  {| listdir := fun _ => Ok ["2.pt"; "readme.txt"; "10.pt"]%string;
     read_image := fun _ => Raise OSError;
     open_image := fun _ => Raise OSError;
     sensible_buckets := fun w h _ _ => (w, h) |}.

Definition cache : CachedDataset.t :=
  {| CachedDataset.cache_dir := "cache";
     CachedDataset.cached_data_list := ["cache/10.pt"; "cache/2.pt"]%string |}.

Lemma cached_listing_witness :
  Permutation (CachedDataset.cached_data_list cache)
    (listed_paths "cache" [".pt"%string] ["2.pt"; "readme.txt"; "10.pt"]%string)
  /\ Sorted (fun a b => String.leb a b = true) (CachedDataset.cached_data_list cache)
  /\ CachedDataset.len cache
     = Z.of_nat (length (List.filter (fun x => Py.endswith x ".pt")
                           ["2.pt"; "readme.txt"; "10.pt"]%string)).
Proof.
  apply (cached_listing cache_io cache "cache").
  - reflexivity.
  - vm_compute. reflexivity.
Defined.

(** *** Degenerate steps and sizes *)

Section Degenerate.

(** X18.  A step of 0 makes [get_video_frames] raise [ValueError]; with a
    negative step the range from the clamped start up to the end of the
    clip is empty, and so is the window. *)
Theorem get_video_frames_step_not_positive (vr : VideoReader)
    (start_idx sample_rate max_frames : Z) :
  sample_rate <= 0 ->
  get_video_frames vr start_idx sample_rate max_frames
  = if sample_rate =? 0 then Raise ValueError else Ok [].
Proof.
  intros Hs. unfold get_video_frames.
  rewrite (bind_Ok_l _ _ _ (sorted_middle start_idx _ (Nat2Z.is_nonneg _))).
  unfold Py.range. destruct (Z.eqb_spec sample_rate 0) as [H0|H0]; [reflexivity|].
  unfold Py.range_len.
  destruct (Z.ltb_spec 0 sample_rate); [lia|].
  destruct (Z.ltb_spec (Z.of_nat (vr_len vr))
              (Z.max 0 (Z.min start_idx (Z.of_nat (vr_len vr))))); [lia|].
  rewrite (bind_Ok_l _ _ _ eq_refl). cbn [seq map].
  unfold Py.slice_to, Py.slice. rewrite drop_nil, take_nil. reflexivity.
Qed.

Import VideoFolderDataset.

Variable w : world.

(** Without bucketing, the frames come from the reader opened at the
    configured size. *)
Lemma process_video_wrapper_plain (self : t) (r : Z) (vid_path : string)
    (v : shape) (vr' vr : VideoReader) (audio : list (list Z)) :
  use_bucketing self = false ->
  process_video_wrapper w self r vid_path = Ok ((v, vr'), vr, audio) ->
  exists idxs frames,
    open_video w vid_path (Some (width self, height self)) = Ok vr
    /\ vr_get_batch vr idxs = Ok frames
    /\ rearrange_fhwc frames = Ok v.
Proof.
  intros Hb H. unfold process_video_wrapper, process_video in H. rewrite Hb in H.
  bind_inv H. destruct a as [[vr0 video] idxs].
  bind_inv Ha. bind_inv Ha. destruct a0 as [video0 idxs0].
  simpl in Ha. injection Ha as <- <- <-.
  bind_inv H. bind_inv H. simpl in H. injection H as Hv Hvr Haudio. subst.
  unfold get_frame_batch in Ha1.
  bind_inv Ha1. bind_inv Ha1. bind_inv Ha1. simpl in Ha1.
  injection Ha1 as Hv Hvr Hidxs. subst.
  eexists _, _. split; [exact Ha0|]. split; eassumption.
Qed.

(** X11.  The validated shape is 256 by 384 whatever the configured size.  So
    when frames are decoded at the configured size, bucketing is off, and
    that size is not 384 by 256 (the constructor's default is 256 by 256),
    no attempt ever succeeds, and the first [__getitem__] on a fresh
    dataset ends with [IndexError]. *)
Theorem getitem_other_size (self : t) (turns : nat) (index : Z) :
  use_bucketing self = false ->
  valid_videos self = ∅ ->
  (height self, width self) <> (256, 384) ->
  (forall path vr idxs frames,
     open_video w path (Some (width self, height self)) = Ok vr ->
     vr_get_batch vr idxs = Ok frames ->
     exists f, frames = [f; height self; width self; 3]) ->
  getitem (S turns) w self index = Raised IndexError.
Proof.
  intros Hb Hvalid Hsize Hdecode.
  assert (exists e, attempt w self 0 index = Raise e) as [e He].
  { unfold attempt.
    destruct (Py.index (video_files self) index) as [path|e]; [|eauto].
    rewrite (bind_Ok_l _ _ _ eq_refl).
    destruct (process_video_wrapper w self (rand_offset w 0) path)
      as [[[[v vr'] vr] audio]|e] eqn:Hpv; [|eauto].
    rewrite (bind_Ok_l _ _ _ eq_refl).
    destruct (process_video_wrapper_plain _ _ _ _ _ _ _ Hb Hpv)
      as (idxs & frames & Hopen & Hbatch & Hre).
    destruct (Hdecode _ _ _ _ Hopen Hbatch) as [f ->].
    simpl in Hre. injection Hre as <-. simpl fst.
    unfold get_video_shape.
    case_bool_decide as Hd.
    - injection Hd as _ Hh Hw.
      exfalso. apply Hsize. rewrite Hh, Hw. reflexivity.
    - exists AssertionError. reflexivity. }
  unfold getitem. rewrite (fetch_loop_no_valid w self turns 0 index e He Hvalid).
  reflexivity.
Qed.

End Degenerate.

Lemma get_video_frames_step_not_positive_witness :
  get_video_frames (reader 10 30 256 384) 2 (-1) 4
  = if -1 =? 0 then Raise ValueError else Ok [].
Proof.
  apply (get_video_frames_step_not_positive (reader 10 30 256 384) 2 (-1) 4). lia.
Defined.

Lemma getitem_other_size_witness :
  VideoFolderDataset.getitem 5 (studio (fun _ => None)) (one_clip 256 256) 0
  = VideoFolderDataset.Raised IndexError.
Proof.
  apply (getitem_other_size (studio (fun _ => None)) (one_clip 256 256) 4 0).
  - reflexivity.
  - reflexivity.
  - simpl. intros H. discriminate H.
  - intros path vr idxs frames Hopen Hbatch. simpl in Hopen. injection Hopen as <-.
    simpl in Hbatch.
    destruct (forallb _ idxs); [|discriminate].
    injection Hbatch as <-. eexists. reflexivity.
Defined.

(** *** The expected audio length and the tiling test at their limits *)

(** A folder dataset over one clip, [n] frames asked for at [fps] frames
    per second. *)
Definition one_clip_at (n fps : Z) : VideoFolderDataset.t :=
  {| VideoFolderDataset.video_files := ["data/video/clip0000001.mp4"%string];
     VideoFolderDataset.width := 384;
     VideoFolderDataset.height := 256;
     VideoFolderDataset.n_sample_frames := n;
     VideoFolderDataset.fps := fps;
     VideoFolderDataset.fallback_prompt := "a video of <*>";
     VideoFolderDataset.use_bucketing := false;
     VideoFolderDataset.valid_videos := ∅ |}.

(** The audio length written as [int(16000 * n_sample_frames / fps)]: the
    product first, then the division. *)
Definition product_first_samples (n fps : Z) : result Z :=
  q ← Py.truediv (16000 * n) fps;
  Py.int_of_float q.

(** C9, refuted as stated: for 201 frames at 25 frames per second the
    code divides first, [201 / 25] is the double just below 8.04, and the
    expected audio shape is [[1, 128639]], where
    [int(16000 * 201 / 25)] is 128640. *)
Lemma audio_shape_divides_first :
  VideoFolderDataset.get_audio_shape (one_clip_at 201 25) = Ok [1; 128639]
  /\ product_first_samples 201 25 = Ok 128640.
Proof. split; vm_compute; reflexivity. Qed.

(** C10, refuted as stated: with a requested frame count of -1 nothing is
    shrunk, [np.arange(e, e - 1)] is empty, its length 0 differs from -1,
    and the tiling of line 612 runs. *)
Lemma tiling_needed_negative_count :
  VideoFolderDataset.arange_idxs (one_clip_at (-1) 24) (reader 100 24 256 384) 0
  = Ok (-1, [])
  /\ VideoFolderDataset.length_differs [] (-1) = true
  /\ VideoFolderDataset.retile [] (-1) = Py.slice_to (Py.tile [] 10) (-1).
Proof. repeat split; vm_compute; reflexivity. Qed.
